(** * KitchenCommand invoice test-suite generator: a shallow embedding

    The development follows [docs/files/invoice_generator.py].  Python
    values are modelled as the interpreter has them:

    - [str] is a sequence of Unicode code points ([len] and slicing count
      code points, not bytes);
    - [float] is IEEE 754 binary64 with round-to-nearest-even, through the
      executable specification [SpecFloat] of the standard library;
    - [int] is [Z];
    - the ReportLab canvas is the sequence of drawing operations it
      received, and the file system is the list of the writes made, a
      path holding the page written to it last;
    - the [random] module and the clock are part of an explicit world state.
*)

From Stdlib Require Import ZArith List Bool Lia String Ascii Permutation.
From Stdlib Require Import Floats.SpecFloat.
Import ListNotations.

Local Open Scope Z_scope.

(* ================================================================== *)
(** ** Python strings *)

Module Str.

(** A Python [str]: a list of code points. *)
Definition char := N.
Definition str := list char.

Definition bytes_of (s : string) : list N :=
  map N_of_ascii (list_ascii_of_string s).

(** Decoding of UTF-8, the encoding of the source file; it lets the
    tables below be written as ordinary string literals. *)
Fixpoint utf8_decode (bs : list N) : str :=
  match bs with
  | [] => []
  | b :: rest =>
    if (b <? 128)%N then b :: utf8_decode rest
    else if (b <? 224)%N then
      match rest with
      | b1 :: rest1 => ((b - 192) * 64 + (b1 - 128))%N :: utf8_decode rest1
      | [] => [b]
      end
    else if (b <? 240)%N then
      match rest with
      | b1 :: b2 :: rest2 =>
        ((b - 224) * 4096 + (b1 - 128) * 64 + (b2 - 128))%N
          :: utf8_decode rest2
      | _ => [b]
      end
    else
      match rest with
      | b1 :: b2 :: b3 :: rest3 =>
        ((b - 240) * 262144 + (b1 - 128) * 4096 + (b2 - 128) * 64
         + (b3 - 128))%N :: utf8_decode rest3
      | _ => [b]
      end
  end.

(** [py "abc"] is the Python literal ['abc']. *)
Definition py (s : string) : str := utf8_decode (bytes_of s).

Definition len (s : str) : Z := Z.of_nat (List.length s).

(** [s[:n]] for a non-negative [n]. *)
Definition slice_to (n : nat) (s : str) : str := firstn n s.

Fixpoint eqb (a b : str) : bool :=
  match a, b with
  | [], [] => true
  | x :: a', y :: b' => N.eqb x y && eqb a' b'
  | _, _ => false
  end.

(** [str.upper] on the ASCII letters; other code points are kept.  The
    only strings it is applied to are keys of [SUPPLIERS], which are
    ASCII. *)
Definition upper_char (c : char) : char :=
  if ((97 <=? c) && (c <=? 122))%N then (c - 32)%N else c.
Definition upper (s : str) : str := map upper_char s.

(** Decimal digits of a natural number, most significant first. *)
Fixpoint digits_fuel (fuel : nat) (n : N) (acc : str) : str :=
  match fuel with
  | O => acc
  | S fuel' =>
    let acc' := (48 + n mod 10)%N :: acc in
    if (n <? 10)%N then acc' else digits_fuel fuel' (n / 10)%N acc'
  end.
Definition digits (n : N) : str := digits_fuel (S (N.to_nat (N.log2 n))) n [].

(** [str(i)] for an [int]. *)
Definition of_int (i : Z) : str :=
  match i with
  | Zneg p => py "-" ++ digits (Npos p)
  | _ => digits (Z.to_N i)
  end.

(** The double-quote character. *)
Definition dquote : str := [34%N].

(** Left padding with zeros, as [%02d] does. *)
Definition zfill (width : nat) (s : str) : str :=
  repeat 48%N (width - List.length s) ++ s.

End Str.

Abbreviation str := Str.str.
Abbreviation py := Str.py.

(* ================================================================== *)
(** ** Python floats: IEEE 754 binary64 *)

Module F64.

Definition prec : Z := 53.
Definition emax : Z := 1024.

Definition float := spec_float.

(** [x + y] and [x * y] on floats. *)
Definition add : float -> float -> float := SFadd prec emax.
Definition mul : float -> float -> float := SFmul prec emax.

(** The float nearest to [num / den] ([den > 0], [num >= 0]), with sign
    [s]: the value a decimal literal denotes and the one [strtod]
    returns. *)
Definition of_ratio (s : bool) (num den : Z) : float :=
  let '(m, e, l) := SFdiv_core_binary prec emax num 0 den 0 in
  binary_round_aux prec emax s m e l.

(** The literal [n / 10^d], e.g. [dec 1485 2] for [14.85]. *)
Definition dec (n : Z) (d : nat) : float :=
  of_ratio (n <? 0) (Z.abs n) (10 ^ Z.of_nat d).

(** Conversion of an [int] operand of a mixed operation:
    [OverflowError] (here [None]) when the integer rounds beyond the
    largest float. *)
Definition of_int (i : Z) : option float :=
  match binary_normalize prec emax i 0 false with
  | S754_infinity _ => None
  | x => Some x
  end.

(** Nearest integer to [a / b] for [b > 0], ties to even. *)
Definition div_half_even (a b : Z) : Z :=
  let q := a / b in
  match Z.compare (2 * (a mod b)) b with
  | Lt => q
  | Gt => q + 1
  | Eq => if Z.even q then q else q + 1
  end.

(** [k * m * 2^e] rounded to an integer, ties to even: with [k = 100]
    the number of hundredths that the correctly rounded two-decimal
    conversion of the float yields. *)
Definition scaled (k : Z) (m : positive) (e : Z) : Z :=
  if 0 <=? e then k * Zpos m * 2 ^ e
  else div_half_even (k * Zpos m) (2 ^ (- e)).

(** [round(x, 2)]: the float is converted to the nearest decimal with
    two fractional digits, and that decimal back to the nearest float;
    zeros, infinities and NaN round to themselves. *)
Definition round2 (x : float) : float :=
  match x with
  | S754_finite s m e => of_ratio s (scaled 100 m e) 100
  | _ => x
  end.

(** Thousands separators in a string of digits. *)
Fixpoint group3_rev (ds : str) : str :=
  match ds with
  | a :: b :: c :: ((_ :: _) as rest) => a :: b :: c :: 44%N :: group3_rev rest
  | _ => ds
  end.
Definition group3 (ds : str) : str := rev (group3_rev (rev ds)).

(** [format(x, ',.2f')]. *)
Definition format_2f (x : float) : str :=
  match x with
  | S754_nan => py "nan"
  | S754_infinity s => (if s then py "-" else []) ++ py "inf"
  | S754_zero s => (if s then py "-" else []) ++ py "0.00"
  | S754_finite s m e =>
    let n := Z.to_N (scaled 100 m e) in
    (if s then py "-" else [])
      ++ group3 (Str.digits (n / 100)%N) ++ py "."
      ++ Str.zfill 2 (Str.digits (n mod 100)%N)
  end.

(** [f"${x:,.2f}"]. *)
Definition money (x : float) : str := py "$" ++ format_2f x.

End F64.

Abbreviation float := F64.float.

(* ================================================================== *)
(** ** Exceptions *)

Inductive exn :=
| KeyError (key : str)
| OverflowError
| ValueError.

Inductive result (A : Type) :=
| Ok (a : A)
| Raise (e : exn).
Arguments Ok {A} a.
Arguments Raise {A} e.

Definition bind {A B} (r : result A) (k : A -> result B) : result B :=
  match r with
  | Ok a => k a
  | Raise e => Raise e
  end.

Notation "x <- e ;; k" := (bind e (fun x => k))
  (at level 61, e at next level, right associativity).
Notation "' p <- e ;; k" := (bind e (fun x => match x with p => k end))
  (at level 61, p pattern, e at next level, right associativity).

(** [d[key]] on a dict given as its list of entries. *)
Fixpoint dict_get {V} (d : list (str * V)) (key : str) : result V :=
  match d with
  | [] => Raise (KeyError key)
  | (k, v) :: d' => if Str.eqb k key then Ok v else dict_get d' key
  end.

(** [i * x] for an [int] and a [float]. *)
Definition int_mul_float (i : Z) (x : float) : result float :=
  match F64.of_int i with
  | Some fi => Ok (F64.mul fi x)
  | None => Raise OverflowError
  end.

(* ================================================================== *)
(** ** The canvas *)

Inductive color :=
| Color (r g b : float)
| white
| black
| gray.

(** The calls a [canvas.Canvas] receives.  Coordinates are in points;
    every coordinate of this program is integer valued ([letter] is
    612 by 792), so they are kept in [Z]. *)
Inductive op :=
| setFillColor (col : color)
| setStrokeColor (col : color)
| setFont (psfontname : str) (size : Z)
| setLineWidth (w : float)
| rect (x y w h : Z) (stroke fill : bool)
| line (x1 y1 x2 y2 : Z)
| drawString (x y : Z) (text : str)
| drawRightString (x y : Z) (text : str)
| drawCentredString (x y : Z) (text : str).

Record canvas := Canvas { cv_filename : str; cv_ops : list op }.

Definition emit (c : canvas) (ops : list op) : canvas :=
  Canvas (cv_filename c) (cv_ops c ++ ops).

(** [letter] *)
Definition letter : Z * Z := (612, 792).

(* ================================================================== *)
(** ** Reference tables *)

Import F64 (dec).

Record palette := { primary : color; secondary : color; accent : color }.

Definition SUPPLIER_COLORS : list (str * palette) :=
  [ (py "norref",
     {| primary := Color (dec 0 1) (dec 35 2) (dec 60 2);
        secondary := Color (dec 0 1) (dec 55 2) (dec 75 2);
        accent := Color (dec 18 2) (dec 55 2) (dec 34 2) |});
    (py "distrobec",
     {| primary := Color (dec 55 2) (dec 9 2) (dec 9 2);
        secondary := Color (dec 75 2) (dec 20 2) (dec 20 2);
        accent := Color (dec 25 2) (dec 25 2) (dec 25 2) |});
    (py "courchesne",
     {| primary := Color (dec 20 2) (dec 45 2) (dec 20 2);
        secondary := Color (dec 30 2) (dec 60 2) (dec 30 2);
        accent := Color (dec 55 2) (dec 35 2) (dec 10 2) |});
    (py "carrousel",
     {| primary := Color (dec 25 2) (dec 25 2) (dec 35 2);
        secondary := Color (dec 40 2) (dec 40 2) (dec 50 2);
        accent := Color (dec 85 2) (dec 55 2) (dec 10 2) |}) ].

Record supplier_info := {
  name : str; tagline : str; address : str; city : str; phone : str;
  fax : str; website : str; gst : str; qst : str; terms : str }.

Definition SUPPLIERS : list (str * supplier_info) :=
  [ (py "norref",
     {| name := py "Les Pêcheries Norref Québec Inc.";
        tagline := py "Une division de Colabor";
        address := py "4900, rue Molson";
        city := py "Montréal, QC H1Y 3J4";
        phone := py "514-906-0931";
        fax := py "514-906-0935";
        website := py "norref.com";
        gst := py "845 291 567 RT0001";
        qst := py "1214 567 890 TQ0001";
        terms := py "Net 14 jours / Net 14 Days" |});
    (py "distrobec",
     {| name := py "Les Aliments Distrobec Inc.";
        tagline := py "Viandes de qualité supérieure";
        address := py "9350, boul. Henri-Bourassa Est";
        city := py "Montréal, QC H1E 2S4";
        phone := py "514-648-2600";
        fax := py "514-648-8822";
        website := py "distrobec.com";
        gst := py "723 456 891 RT0001";
        qst := py "1198 234 567 TQ0001";
        terms := py "Net 21 jours / Net 21 Days" |});
    (py "courchesne",
     {| name := py "Courchesne Larose Ltée";
        tagline := py "La qualité depuis 1918";
        address := py "9001, boul. des Sciences";
        city := py "Anjou, QC H1J 1H5";
        phone := py "514-352-4001";
        fax := py "514-352-4191";
        website := py "courchesnelarose.com";
        gst := py "891 234 567 RT0001";
        qst := py "1245 678 901 TQ0001";
        terms := py "Net 14 jours / Net 14 Days" |});
    (py "carrousel",
     {| name := py "Carrousel Emballage Inc.";
        tagline := py "Solutions d'emballage depuis 1971";
        address := py "8585, boul. Langelier";
        city := py "Saint-Léonard, QC H1P 2C7";
        phone := py "514-327-6222";
        fax := py "514-327-6891";
        website := py "carrousel.ca";
        gst := py "567 891 234 RT0001";
        qst := py "1167 890 123 TQ0001";
        terms := py "Net 30 jours / Net 30 Days" |}) ].

Record customer_info := {
  cust_name : str; attention : str; cust_address : str; cust_city : str;
  cust_phone : str; customer_no : str }.

Definition CUSTOMER : customer_info :=
  {| cust_name := py "Bistro Le Gourmet Inc.";
     attention := py "Chef Marc-André Tremblay";
     cust_address := py "1234, rue Sainte-Catherine Est";
     cust_city := py "Montréal, QC H2L 2H5";
     cust_phone := py "514-555-1234";
     customer_no := py "MTL-458923" |}.

(** A catalog entry [(item_code, description, pack, unit_price)] and a
    line item [(item_code, description, pack, quantity, unit_price)]. *)
Definition product : Type := str * str * str * float.
Definition item : Type := str * str * str * Z * float.

Definition SEAFOOD_PRODUCTS : list product :=
  [ (py "SF-10234", py "SAUMON ATLANTIQUE FRAIS 10-12LB", py "1/PC", dec 1485 2);
    (py "SF-10241", py "SAUMON ATLANTIQUE FILET S/P", py "KG", dec 2250 2);
    (py "SF-10312", py "TRUITE ARC-EN-CIEL PORTION 6OZ", py "1/10LB", dec 4575 2);
    (py "SF-10425", py "CREVETTES 16/20 TIGRE CRUES", py "2/5LB", dec 8950 2);
    (py "SF-10426", py "CREVETTES 21/25 TIGRE CUITES", py "2/5LB", dec 7825 2);
    (py "SF-10512", py "HOMARD VIVANT 1.25LB", py "PC", dec 2895 2);
    (py "SF-10623", py "MOULES DE L'IPE 2LB", py "1/2LB", dec 845 2);
    (py "SF-10731", py "PÉTONCLES U10 DRY PACK", py "1/5LB", dec 12500 2);
    (py "SF-10745", py "PÉTONCLES 20/30 IQF", py "2/5LB", dec 6850 2);
    (py "SF-10821", py "FILET MORUE FRAÎCHE", py "KG", dec 1875 2);
    (py "SF-10834", py "FILET AIGLEFIN FRAIS", py "KG", dec 1950 2);
    (py "SF-10912", py "THON ALBACORE LOIN AAA", py "KG", dec 3850 2);
    (py "SF-11023", py "CALMAR TUBE & TENTACULE", py "2/2.5KG", dec 3275 2);
    (py "SF-11134", py "CRABE DORMEUR SECT.", py "1/5LB", dec 4250 2);
    (py "SF-11245", py "HUÎTRES MALPEQUE #1", py "100CT", dec 8500 2) ].

Definition MEAT_PRODUCTS : list product :=
  [ (py "VD-20145", py "BOEUF AAA FILET MIGNON 8OZ", py "1/10LB", dec 18500 2);
    (py "VD-20156", py "BOEUF AAA CÔTE DE BOEUF", py "KG", dec 3250 2);
    (py "VD-20234", py "BOEUF AAA BAVETTE MARINÉE", py "2/5KG", dec 8975 2);
    (py "VD-20312", py "BOEUF HACHÉ MI-MAIGRE", py "2/5KG", dec 4250 2);
    (py "VD-20345", py "BOEUF AAA STRIPLOIN", py "KG", dec 2875 2);
    (py "VD-30123", py "VEAU ESCALOPE 4OZ", py "1/5KG", dec 12500 2);
    (py "VD-30156", (py "VEAU OSSO BUCO 2" ++ Str.dquote), py "1/10KG", dec 9550 2);
    (py "VD-30234", py "VEAU CÔTELETTE FRENCHED", py "1/5KG", dec 14500 2);
    (py "VD-40123", py "PORC LONGE DÉSOSSÉE", py "KG", dec 1285 2);
    (py "VD-40234", py "PORC CÔTE LEVÉE BB", py "1/20KG", dec 11850 2);
    (py "VD-40312", py "PORC BACON TRANCHÉ", py "5KG", dec 4575 2);
    (py "VD-50123", py "AGNEAU CARRÉ FRENCHED", py "1/PC", dec 6850 2);
    (py "VD-50234", py "AGNEAU GIGOT DÉSOSSÉ", py "KG", dec 2475 2);
    (py "VD-60123", py "CANARD MAGRET FRAIS", py "1/PC", dec 1895 2);
    (py "VD-60234", py "CANARD CUISSE CONFITE", py "4/12PC", dec 8500 2);
    (py "VD-70123", py "POULET POITRINE S/P S/O", py "2/5KG", dec 5250 2);
    (py "VD-70234", py "POULET CUISSE DÉSOSSÉE", py "2/5KG", dec 3875 2) ].

Definition PRODUCE_PRODUCTS : list product :=
  [ (py "CL-80123", py "TOMATE ITALIENNE CAISSE", py "1/25LB", dec 2850 2);
    (py "CL-80134", py "TOMATE CERISE ROUGE", py "12/DRY PT", dec 3275 2);
    (py "CL-80145", py "TOMATE GRAPE MIXTE", py "12/DRY PT", dec 3550 2);
    (py "CL-80212", py "LAITUE ROMAINE 24CT", py "1/24CT", dec 3875 2);
    (py "CL-80223", py "MESCLUN BIO", py "4/2.5LB", dec 4250 2);
    (py "CL-80234", py "ÉPINARD BÉBÉ", py "4/2.5LB", dec 3825 2);
    (py "CL-80312", py "CAROTTE NANTAISE", py "1/50LB", dec 3250 2);
    (py "CL-80323", py "CAROTTE BÉBÉ PELÉE", py "4/5LB", dec 2875 2);
    (py "CL-80412", py "OIGNON ESPAGNOL JUMBO", py "1/50LB", dec 2550 2);
    (py "CL-80423", py "OIGNON ROUGE", py "1/25LB", dec 2275 2);
    (py "CL-80434", py "ÉCHALOTE FRANÇAISE", py "1/5KG", dec 4500 2);
    (py "CL-80512", py "POMME DE TERRE IDAHO", py "1/50LB", dec 2895 2);
    (py "CL-80523", py "POMME DE TERRE GRELOT", py "1/50LB", dec 3550 2);
    (py "CL-80612", py "POIVRON ROUGE", py "1/25LB", dec 5250 2);
    (py "CL-80623", py "POIVRON JAUNE", py "1/25LB", dec 5575 2);
    (py "CL-80634", py "POIVRON VERT", py "1/25LB", dec 2850 2);
    (py "CL-80712", py "CHAMPIGNON BLANC TRANCHÉ", py "4/5LB", dec 4250 2);
    (py "CL-80723", py "CHAMPIGNON CREMINI", py "4/5LB", dec 4875 2);
    (py "CL-80734", py "CHAMPIGNON SHIITAKE", py "1/5LB", dec 3250 2);
    (py "CL-80812", py "BROCOLI COURONNE", py "14CT", dec 2875 2);
    (py "CL-80823", py "CHOU-FLEUR", py "12CT", dec 3250 2);
    (py "CL-80912", py "COURGETTE VERTE", py "1/22LB", dec 2450 2);
    (py "CL-80923", py "AUBERGINE ITALIENNE", py "1/22LB", dec 2875 2);
    (py "CL-81012", py "AIL PELÉ ENTIER", py "6/3LB", dec 4250 2);
    (py "CL-81023", py "GINGEMBRE FRAIS", py "1/30LB", dec 6500 2);
    (py "CL-81112", py "HERBES FRAÎCHES MIXTES", py "12CT", dec 2850 2);
    (py "CL-81123", py "BASILIC FRAIS", py "12CT", dec 2275 2);
    (py "CL-81134", py "CORIANDRE FRAÎCHE", py "30CT", dec 1850 2) ].

Definition PACKAGING_PRODUCTS : list product :=
  [ (py "CE-90123", py "CONTENANT ALUM. 2.25LB RECT", py "1/500", dec 6550 2);
    (py "CE-90134", py "CONTENANT ALUM. 1LB ROND", py "1/500", dec 5275 2);
    (py "CE-90145", py "COUVERCLE ALUM. 2.25LB", py "1/500", dec 3850 2);
    (py "CE-90212", py "SAC SOUS-VIDE 8X12", py "1/1000", dec 4575 2);
    (py "CE-90223", py "SAC SOUS-VIDE 10X14", py "1/1000", dec 5850 2);
    (py "CE-90312", (py "FILM ÉTIRABLE 18" ++ Str.dquote), py "4/RL", dec 8500 2);
    (py "CE-90323", (py "PAPIER CIRÉ 12" ++ Str.dquote), py "6/RL", dec 7250 2);
    (py "CE-90412", (py "BOÎTE PIZZA 12" ++ Str.dquote ++ py " KRAFT"), py "1/50", dec 4250 2);
    (py "CE-90423", (py "BOÎTE PIZZA 16" ++ Str.dquote ++ py " KRAFT"), py "1/50", dec 5575 2);
    (py "CE-90512", py "CONTENANT CLAM 8X8 3COMP", py "1/200", dec 6850 2);
    (py "CE-90523", py "CONTENANT CLAM 9X9 1COMP", py "1/200", dec 5275 2);
    (py "CE-90612", py "BOL SOUPE 16OZ + COUV", py "1/250", dec 4550 2);
    (py "CE-90623", py "BOL SOUPE 32OZ + COUV", py "1/250", dec 5875 2);
    (py "CE-90712", py "USTENSILES COMBO HVY", py "1/500", dec 7250 2);
    (py "CE-90723", py "SERVIETTE DÎNER 2PLY", py "1/3000", dec 4500 2);
    (py "CE-90812", py "GANTS NITRILE M", py "10/100", dec 8550 2);
    (py "CE-90823", py "GANTS NITRILE L", py "10/100", dec 8550 2);
    (py "CE-90912", py "SAC POUBELLE 35X50 BLK", py "1/100", dec 3575 2);
    (py "CE-91012", py "DÉGRAISSEUR CONCENTRÉ", py "4/4L", dec 4850 2);
    (py "CE-91023", py "DÉSINFECTANT QUAT", py "4/4L", dec 5275 2) ].


(* ================================================================== *)
(** ** Drawing functions *)

Definition Helvetica : str := py "Helvetica".
Definition Helvetica_Bold : str := py "Helvetica-Bold".
Definition Helvetica_Oblique : str := py "Helvetica-Oblique".

(** Draw the invoice header section *)
Definition draw_header (c : canvas) (width height : Z) (supplier_key : str)
    (invoice_num invoice_date po_num : str) : result (Z * canvas) :=
  supplier <- dict_get SUPPLIERS supplier_key ;;
  colors_scheme <- dict_get SUPPLIER_COLORS supplier_key ;;
  (* Main header bar *)
  let c := emit c
    [ setFillColor (primary colors_scheme);
      rect 0 (height - 90) width 90 true true;
      (* Company name and tagline *)
      setFillColor white;
      setFont Helvetica_Bold 22;
      drawString 35 (height - 40) (name supplier);
      setFont Helvetica_Oblique 11;
      drawString 35 (height - 58) (tagline supplier);
      (* Invoice label *)
      setFont Helvetica_Bold 20;
      drawRightString (width - 35) (height - 40) (py "FACTURE");
      setFont Helvetica 10;
      drawRightString (width - 35) (height - 55) (py "INVOICE");
      (* Secondary bar with contact info *)
      setFillColor (secondary colors_scheme);
      rect 0 (height - 118) width 28 true true;
      setFillColor white;
      setFont Helvetica 8 ] in
  let contact_line :=
    address supplier ++ py " | " ++ city supplier ++ py " | Tél: "
      ++ phone supplier ++ py " | " ++ website supplier in
  let c := emit c [ drawCentredString (width / 2) (height - 108) contact_line ] in
  (* Invoice details box (right side) *)
  let box_y := height - 200 in
  let c := emit c
    [ setFillColor (Color (dec 95 2) (dec 95 2) (dec 95 2));
      rect 400 box_y 170 75 true true;
      setStrokeColor (primary colors_scheme);
      setLineWidth (dec 1 0);
      rect 400 box_y 170 75 true false;
      setFillColor black;
      setFont Helvetica_Bold 9 ] in
  let y := box_y + 60 in
  let c := emit c
    [ drawString 408 y (py "No Facture / Invoice #:");
      setFont Helvetica 9;
      drawRightString 562 y invoice_num ] in
  let y := y - 15 in
  let c := emit c
    [ setFont Helvetica_Bold 9;
      drawString 408 y (py "Date:");
      setFont Helvetica 9;
      drawRightString 562 y invoice_date ] in
  let y := y - 15 in
  let c := emit c
    [ setFont Helvetica_Bold 9;
      drawString 408 y (py "No Client / Customer #:");
      setFont Helvetica 9;
      drawRightString 562 y (customer_no CUSTOMER) ] in
  let y := y - 15 in
  let c := emit c
    [ setFont Helvetica_Bold 9;
      drawString 408 y (py "No Commande / PO #:");
      setFont Helvetica 9;
      drawRightString 562 y po_num ] in
  Ok (height - 130, c).

(** Draw bill-to and ship-to addresses *)
Definition draw_addresses (c : canvas) (y_start : Z) (supplier_key : str)
    : result (Z * canvas) :=
  supplier <- dict_get SUPPLIERS supplier_key ;;
  colors_scheme <- dict_get SUPPLIER_COLORS supplier_key ;;
  (* Bill To *)
  let c := emit c
    [ setFillColor (primary colors_scheme);
      setFont Helvetica_Bold 10;
      drawString 35 y_start (py "FACTURER À / BILL TO:");
      setFillColor black;
      setFont Helvetica 10 ] in
  let y := y_start - 15 in
  let c := emit c [ drawString 35 y (cust_name CUSTOMER) ] in
  let y := y - 12 in
  let c := emit c [ drawString 35 y (py "À l'att: " ++ attention CUSTOMER) ] in
  let y := y - 12 in
  let c := emit c [ drawString 35 y (cust_address CUSTOMER) ] in
  let y := y - 12 in
  let c := emit c [ drawString 35 y (cust_city CUSTOMER) ] in
  (* Ship To *)
  let c := emit c
    [ setFillColor (primary colors_scheme);
      setFont Helvetica_Bold 10;
      drawString 220 y_start (py "LIVRER À / SHIP TO:");
      setFillColor black;
      setFont Helvetica 10 ] in
  let y := y_start - 15 in
  let c := emit c [ drawString 220 y (cust_name CUSTOMER) ] in
  let y := y - 12 in
  let c := emit c [ drawString 220 y (cust_address CUSTOMER) ] in
  let y := y - 12 in
  let c := emit c [ drawString 220 y (cust_city CUSTOMER) ] in
  let y := y - 12 in
  let c := emit c [ drawString 220 y (py "Tél: " ++ cust_phone CUSTOMER) ] in
  Ok (y_start - 70, c).

(** The body of the [for item in items] loop of [draw_line_items], run
    on the remaining items from the current canvas, [y], [subtotal] and
    [row_num]. *)
Fixpoint draw_line_items_loop (c : canvas) (width : Z) (items : list item)
    (y : Z) (subtotal : float) (row_num : Z) : result (Z * float * canvas) :=
  match items with
  | [] => Ok (y, subtotal, c)
  | item :: rest =>
    let '(code, desc, pack, qty, unit_price) := item in
    extended <- int_mul_float qty unit_price ;;
    let subtotal := F64.add subtotal extended in
    (* Alternate row shading *)
    let c :=
      if row_num mod 2 =? 0 then
        emit c [ setFillColor (Color (dec 97 2) (dec 97 2) (dec 97 2));
                 rect 30 (y - 4) (width - 60) 14 true true ]
      else c in
    let c := emit c [ setFillColor black; drawString 35 y code ] in
    (* Truncate description if too long *)
    let desc :=
      if 32 <? Str.len desc then Str.slice_to 30 desc ++ py ".." else desc in
    let c := emit c
      [ drawString 95 y desc;
        drawString 320 y pack;
        drawCentredString 385 y (Str.of_int qty);
        drawRightString 460 y (F64.money unit_price);
        drawRightString 555 y (F64.money extended) ] in
    draw_line_items_loop c width rest (y - 14) subtotal (row_num + 1)
  end.

(** Draw the line items table.  [subtotal] starts as the [int] 0; every
    later use converts it to a float, so it starts here as the float
    [+0.0] it converts to. *)
Definition draw_line_items (c : canvas) (y_start width : Z) (items : list item)
    (colors_scheme : palette) : result (Z * float * canvas) :=
  (* Table header *)
  let c := emit c
    [ setFillColor (primary colors_scheme);
      rect 30 y_start (width - 60) 18 true true;
      setFillColor white;
      setFont Helvetica_Bold 8;
      (* Column headers - adjusted positions *)
      drawString 35 (y_start + 5) (py "Code");
      drawString 95 (y_start + 5) (py "Description");
      drawString 320 (y_start + 5) (py "Format");
      drawString 375 (y_start + 5) (py "Qté");
      drawRightString 460 (y_start + 5) (py "Prix Unit.");
      drawRightString 555 (y_start + 5) (py "Montant") ] in
  let y := y_start - 5 in
  let c := emit c [ setFillColor black; setFont Helvetica 8 ] in
  let subtotal := S754_zero false in
  let row_num := 0 in
  draw_line_items_loop c width items y subtotal row_num.

(** Draw the totals section.  [freight] and [fuel] are keyword
    parameters with the defaults [35.00] and [12.50]. *)
Definition draw_totals (c : canvas) (y_start width : Z) (subtotal : float)
    (supplier_key : str) (freight fuel : option float)
    : result (Z * float * canvas) :=
  let freight := match freight with Some v => v | None => dec 3500 2 end in
  let fuel := match fuel with Some v => v | None => dec 1250 2 end in
  supplier <- dict_get SUPPLIERS supplier_key ;;
  colors_scheme <- dict_get SUPPLIER_COLORS supplier_key ;;
  (* Totals box *)
  let box_height := 130 in
  let c := emit c
    [ setStrokeColor (primary colors_scheme);
      setLineWidth (dec 1 0);
      rect 380 (y_start - box_height) 185 box_height true false ] in
  let y := y_start - 15 in
  let c := emit c
    [ setFont Helvetica 9;
      setFillColor black;
      drawString 390 y (py "Sous-total / Subtotal:");
      drawRightString 555 y (F64.money subtotal) ] in
  let y := y - 14 in
  let c := emit c
    [ drawString 390 y (py "Transport / Freight:");
      drawRightString 555 y (F64.money freight) ] in
  let y := y - 14 in
  let c := emit c
    [ drawString 390 y (py "Surcharge carburant / Fuel:");
      drawRightString 555 y (F64.money fuel) ] in
  let taxable := F64.add (F64.add subtotal freight) fuel in
  let y := y - 14 in
  let gst := F64.mul taxable (dec 5 2) in
  let c := emit c
    [ drawString 390 y (py "TPS/GST (5%):");
      drawRightString 555 y (F64.money gst) ] in
  let y := y - 14 in
  let qst := F64.mul taxable (dec 9975 5) in
  let c := emit c
    [ drawString 390 y (py "TVQ/QST (9.975%):");
      drawRightString 555 y (F64.money qst) ] in
  let y := y - 20 in
  let c := emit c
    [ setLineWidth (dec 15 1);
      line 385 (y + 10) 560 (y + 10) ] in
  let total := F64.add (F64.add taxable gst) qst in
  let c := emit c
    [ setFont Helvetica_Bold 11;
      setFillColor (primary colors_scheme);
      drawString 390 y (py "TOTAL:");
      drawRightString 555 y (F64.money total) ] in
  Ok (y - 20, total, c).

(** Draw footer with payment terms and tax numbers *)
Definition draw_footer (c : canvas) (y_start width height : Z)
    (supplier_key : str) : result canvas :=
  supplier <- dict_get SUPPLIERS supplier_key ;;
  colors_scheme <- dict_get SUPPLIER_COLORS supplier_key ;;
  Ok (emit c
    [ (* Payment terms box *)
      setFillColor (Color (dec 95 2) (dec 95 2) (dec 95 2));
      rect 30 (y_start - 55) 320 55 true true;
      setFillColor black;
      setFont Helvetica_Bold 9;
      drawString 40 (y_start - 15) (py "CONDITIONS / TERMS:");
      setFont Helvetica 9;
      drawString 40 (y_start - 30) (terms supplier);
      drawString 40 (y_start - 45)
        (py "Veuillez référer au numéro de facture / Please reference invoice #");
      (* Tax registration numbers *)
      setFont Helvetica 8;
      drawString 380 (y_start - 15) (py "TPS/GST: " ++ gst supplier);
      drawString 380 (y_start - 30) (py "TVQ/QST: " ++ qst supplier);
      (* Bottom bar *)
      setFillColor (primary colors_scheme);
      rect 0 25 width 25 true true;
      setFillColor white;
      setFont Helvetica 9;
      drawCentredString (width / 2) 35
        (py "Merci de votre confiance! | Thank you for your business!");
      (* Page number *)
      setFillColor gray;
      setFont Helvetica 7;
      drawRightString (width - 30) 12 (py "Page 1 de 1") ]).

(* ================================================================== *)
(** ** The world: random numbers, the clock and the file system *)

(** The [random] module, over a generator state [G].  [randint a b]
    raises [ValueError] on an empty range, [sample population k] when
    [k] is negative or larger than the population. *)
Class Random (G : Type) : Type := {
  randint : Z -> Z -> G -> result (Z * G);
  sample : forall {A : Type}, list A -> Z -> G -> result (list A * G) }.

(** [picked] lists elements of [population] found at pairwise distinct
    positions. *)
Definition drawn_from {A} (population picked : list A) : Prop :=
  exists idx : list nat,
    NoDup idx /\ Forall2 (fun i x => nth_error population i = Some x) idx picked.

(** What the library documents of the two functions. *)
Class RandomLaws (G : Type) {R : Random G} : Prop := {
  randint_range : forall a b g, a <= b ->
    exists n g', randint a b g = Ok (n, g') /\ a <= n <= b;
  sample_distinct : forall (A : Type) (population : list A) k g,
    0 <= k <= Z.of_nat (List.length population) ->
    exists picked g',
      sample population k g = Ok (picked, g')
      /\ Z.of_nat (List.length picked) = k
      /\ drawn_from population picked }.

(** A generator driven by a tape of raw draws (an exhausted tape keeps
    yielding 0), with the selection by a shrinking pool that
    [random.sample] uses on small populations. *)
Definition tape := list N.

Definition randbelow (n : nat) (g : tape) : nat * tape :=
  match g with
  | [] => (O, [])
  | r :: g' => (Nat.modulo (N.to_nat r) n, g')
  end.

Fixpoint sample_pool {A} (pool : list A) (k : nat) (g : tape) : list A * tape :=
  match k with
  | O => ([], g)
  | S k' =>
    let n := List.length pool in
    let '(j, g) := randbelow n g in
    match nth_error pool j, nth_error pool (n - 1)%nat with
    | Some x, Some moved =>
      (* result[i] = pool[j]; pool[j] = pool[n-i-1] *)
      let pool' := firstn (n - 1)%nat (firstn j pool ++ moved :: skipn (S j) pool) in
      let '(picked, g) := sample_pool pool' k' g in
      (x :: picked, g)
    | _, _ => ([], g)
    end
  end.

#[export] Instance tape_random : Random tape := {
  randint a b g :=
    if b <? a then Raise ValueError
    else
      let '(r, g') := randbelow (Z.to_nat (b - a + 1)) g in
      Ok (a + Z.of_nat r, g');
  sample A population k g :=
    if (k <? 0) || (Z.of_nat (List.length population) <? k) then Raise ValueError
    else Ok (sample_pool population (Z.to_nat k) g) }.

Record datetime := {
  year : Z; month : Z; day : Z; hour : Z; minute : Z; second : Z }.

(** [strftime("%d/%m/%Y")] *)
Definition strftime_dmY (t : datetime) : str :=
  Str.zfill 2 (Str.of_int (day t)) ++ py "/"
    ++ Str.zfill 2 (Str.of_int (month t)) ++ py "/" ++ Str.of_int (year t).

(** [os.path.join(a, b)] on a POSIX system. *)
Definition path_join (a b : str) : str :=
  match b with
  | 47%N :: _ => b
  | _ =>
    match rev a with
    | [] => b
    | 47%N :: _ => a ++ b
    | _ => a ++ py "/" ++ b
    end
  end.

Section Generator.

Context {G : Type} {R : Random G}.

(** The state outside the program: the generator behind [random], the
    clock read by [datetime.now()] and the writes made to the file
    system so far, newest first.  A write is the path written and the
    drawing operations of the page; a path written twice appears twice,
    and holds what was written last.  What the PDF library puts into a
    file on its own account is not represented. *)
Record world := World {
  rng : G;
  now : datetime;
  files : list (str * list op) }.

(** [c.save()] *)
Definition save (c : canvas) (w : world) : world :=
  World (rng w) (now w) ((cv_filename c, cv_ops c) :: files w).

(** The [for product in random.sample(...)] loop of the random
    selection. *)
Fixpoint select_items_loop (sampled : list product) (selected_items : list item)
    (g : G) : result (list item * G) :=
  match sampled with
  | [] => Ok (selected_items, g)
  | product :: rest =>
    let '(code, desc, pack, unit_price) := product in
    '(qty, g) <- randint 1 5 g ;;
    select_items_loop rest (selected_items ++ [(code, desc, pack, qty, unit_price)]) g
  end.

(** Select items if not provided: the body of
    [if selected_items is None] in [generate_invoice]. *)
Definition select_items (products_list : list product) (g : G)
    : result (list item * G) :=
  '(num_items, g) <- randint 8 15 g ;;
  let selected_items := [] in
  '(sampled, g) <-
    sample products_list
      (Z.min num_items (Z.of_nat (List.length products_list))) g ;;
  select_items_loop sampled selected_items g.

(** Generate a single invoice *)
Definition generate_invoice (supplier_key : str) (products_list : list product)
    (invoice_num po_num output_dir : str) (selected_items : option (list item))
    (w : world) : result (str * float * world) :=
  let '(width, height) := letter in
  supplier <- dict_get SUPPLIERS supplier_key ;;
  colors_scheme <- dict_get SUPPLIER_COLORS supplier_key ;;
  let filename :=
    path_join output_dir
      (Str.upper supplier_key ++ py "_INV_" ++ invoice_num ++ py ".pdf") in
  let c := Canvas filename [] in
  let invoice_date := strftime_dmY (now w) in
  (* Draw header *)
  '(y, c) <- draw_header c width height supplier_key invoice_num invoice_date po_num ;;
  (* Draw addresses *)
  '(y, c) <- draw_addresses c (y - 15) supplier_key ;;
  (* Select items if not provided *)
  '(selected_items, g) <-
    match selected_items with
    | None => select_items products_list (rng w)
    | Some items => Ok (items, rng w)
    end ;;
  let w := World g (now w) (files w) in
  (* Draw line items *)
  '(y, subtotal, c) <- draw_line_items c (y - 25) width selected_items colors_scheme ;;
  (* Draw totals *)
  let freight := F64.round2 (F64.add (dec 25 0) (F64.mul subtotal (dec 2 2))) in
  let fuel := F64.round2 (F64.add (dec 8 0) (F64.mul subtotal (dec 1 2))) in
  '(y, total, c) <- draw_totals c (y - 20) width subtotal supplier_key
                      (Some freight) (Some fuel) ;;
  (* Draw footer *)
  c <- draw_footer c (y - 20) width height supplier_key ;;
  let w := save c w in
  Ok (filename, total, w).

(** The seafood invoice of [main]. *)
Definition output_dir : str := py "/home/claude/invoices".

Definition seafood_items : list item :=
  [ (py "SF-10234", py "SAUMON ATLANTIQUE FRAIS 10-12LB", py "1/PC", 3, dec 1485 2);
    (py "SF-10241", py "SAUMON ATLANTIQUE FILET S/P", py "KG", 8, dec 2250 2);
    (py "SF-10425", py "CREVETTES 16/20 TIGRE CRUES", py "2/5LB", 4, dec 8950 2);
    (py "SF-10426", py "CREVETTES 21/25 TIGRE CUITES", py "2/5LB", 3, dec 7825 2);
    (py "SF-10512", py "HOMARD VIVANT 1.25LB", py "PC", 12, dec 2895 2);
    (py "SF-10623", py "MOULES DE L'IPE 2LB", py "1/2LB", 20, dec 845 2);
    (py "SF-10731", py "PÉTONCLES U10 DRY PACK", py "1/5LB", 2, dec 12500 2);
    (py "SF-10821", py "FILET MORUE FRAÎCHE", py "KG", 5, dec 1875 2);
    (py "SF-10912", py "THON ALBACORE LOIN AAA", py "KG", 4, dec 3850 2);
    (py "SF-11245", py "HUÎTRES MALPEQUE #1", py "100CT", 2, dec 8500 2) ].

Definition meat_items : list item :=
  [ (py "VD-20145", py "BOEUF AAA FILET MIGNON 8OZ", py "1/10LB", 2, dec 18500 2);
    (py "VD-20156", py "BOEUF AAA CÔTE DE BOEUF", py "KG", 15, dec 3250 2);
    (py "VD-20234", py "BOEUF AAA BAVETTE MARINÉE", py "2/5KG", 3, dec 8975 2);
    (py "VD-20312", py "BOEUF HACHÉ MI-MAIGRE", py "2/5KG", 5, dec 4250 2);
    (py "VD-30123", py "VEAU ESCALOPE 4OZ", py "1/5KG", 2, dec 12500 2);
    (py "VD-30156", (py "VEAU OSSO BUCO 2" ++ Str.dquote), py "1/10KG", 1, dec 9550 2);
    (py "VD-40123", py "PORC LONGE DÉSOSSÉE", py "KG", 10, dec 1285 2);
    (py "VD-40234", py "PORC CÔTE LEVÉE BB", py "1/20KG", 2, dec 11850 2);
    (py "VD-50123", py "AGNEAU CARRÉ FRENCHED", py "1/PC", 6, dec 6850 2);
    (py "VD-60123", py "CANARD MAGRET FRAIS", py "1/PC", 10, dec 1895 2);
    (py "VD-70123", py "POULET POITRINE S/P S/O", py "2/5KG", 4, dec 5250 2) ].

Definition produce_items : list item :=
  [ (py "CL-80123", py "TOMATE ITALIENNE CAISSE", py "1/25LB", 4, dec 2850 2);
    (py "CL-80134", py "TOMATE CERISE ROUGE", py "12/DRY PT", 2, dec 3275 2);
    (py "CL-80212", py "LAITUE ROMAINE 24CT", py "1/24CT", 3, dec 3875 2);
    (py "CL-80223", py "MESCLUN BIO", py "4/2.5LB", 2, dec 4250 2);
    (py "CL-80234", py "ÉPINARD BÉBÉ", py "4/2.5LB", 2, dec 3825 2);
    (py "CL-80312", py "CAROTTE NANTAISE", py "1/50LB", 2, dec 3250 2);
    (py "CL-80412", py "OIGNON ESPAGNOL JUMBO", py "1/50LB", 3, dec 2550 2);
    (py "CL-80434", py "ÉCHALOTE FRANÇAISE", py "1/5KG", 2, dec 4500 2);
    (py "CL-80512", py "POMME DE TERRE IDAHO", py "1/50LB", 4, dec 2895 2);
    (py "CL-80612", py "POIVRON ROUGE", py "1/25LB", 3, dec 5250 2);
    (py "CL-80634", py "POIVRON VERT", py "1/25LB", 2, dec 2850 2);
    (py "CL-80712", py "CHAMPIGNON BLANC TRANCHÉ", py "4/5LB", 3, dec 4250 2);
    (py "CL-80812", py "BROCOLI COURONNE", py "14CT", 2, dec 2875 2);
    (py "CL-81012", py "AIL PELÉ ENTIER", py "6/3LB", 2, dec 4250 2);
    (py "CL-81123", py "BASILIC FRAIS", py "12CT", 3, dec 2275 2) ].

Definition packaging_items : list item :=
  [ (py "CE-90123", py "CONTENANT ALUM. 2.25LB RECT", py "1/500", 2, dec 6550 2);
    (py "CE-90134", py "CONTENANT ALUM. 1LB ROND", py "1/500", 1, dec 5275 2);
    (py "CE-90145", py "COUVERCLE ALUM. 2.25LB", py "1/500", 2, dec 3850 2);
    (py "CE-90212", py "SAC SOUS-VIDE 8X12", py "1/1000", 1, dec 4575 2);
    (py "CE-90312", (py "FILM ÉTIRABLE 18" ++ Str.dquote), py "4/RL", 3, dec 8500 2);
    (py "CE-90323", (py "PAPIER CIRÉ 12" ++ Str.dquote), py "6/RL", 2, dec 7250 2);
    (py "CE-90512", py "CONTENANT CLAM 8X8 3COMP", py "1/200", 2, dec 6850 2);
    (py "CE-90612", py "BOL SOUPE 16OZ + COUV", py "1/250", 3, dec 4550 2);
    (py "CE-90714", py "USTENSILES COMBO HVY", py "1/500", 1, dec 7250 2);
    (py "CE-90723", py "SERVIETTE DÎNER 2PLY", py "1/3000", 2, dec 4500 2);
    (py "CE-90812", py "GANTS NITRILE M", py "10/100", 1, dec 8550 2);
    (py "CE-90912", py "SAC POUBELLE 35X50 BLK", py "1/100", 3, dec 3575 2) ].


Definition main_seafood (w : world) : result (str * float * world) :=
  generate_invoice (py "norref") SEAFOOD_PRODUCTS (py "NRF-78234")
    (py "PO-2025-1247") output_dir (Some seafood_items) w.

End Generator.

(* ================================================================== *)
(** ** Notions used in the statements *)

(** The keys of [SUPPLIERS]: the four supplier profiles. *)
Definition valid_key (k : str) : Prop := In k (map fst SUPPLIERS).

Definition description (it : item) : str :=
  let '(_, desc, _, _, _) := it in desc.
Definition quantity (it : item) : Z :=
  let '(_, _, _, qty, _) := it in qty.
Definition unit_price (it : item) : float :=
  let '(_, _, _, _, price) := it in price.
Definition product_of (it : item) : product :=
  let '(code, desc, pack, _, price) := it in (code, desc, pack, price).

(** The subtotal a call of [draw_line_items] returns, and the total a
    call of [generate_invoice] returns. *)
Definition subtotal_of (r : result (Z * float * canvas)) : result float :=
  '(_, subtotal, _) <- r ;; Ok subtotal.
Definition total_of {W} (r : result (str * float * W)) : result float :=
  '(_, total, _) <- r ;; Ok total.

(** The page saved last. *)
Definition saved_page {G} (w : world (G := G)) : option (str * list op) :=
  match files w with
  | [] => None
  | file :: _ => Some file
  end.

(** The texts written left-aligned ([drawString]) and right-aligned
    ([drawRightString]) at the abscissa [x], in drawing order. *)
Definition strings_at (x : Z) (ops : list op) : list str :=
  flat_map (fun o =>
    match o with
    | drawString x' _ text => if x' =? x then [text] else []
    | _ => []
    end) ops.
Definition right_strings_at (x : Z) (ops : list op) : list str :=
  flat_map (fun o =>
    match o with
    | drawRightString x' _ text => if x' =? x then [text] else []
    | _ => []
    end) ops.

(** The amounts written beside a label of the totals block: each text
    written left-aligned at the abscissa 390 that is followed at once by
    a text right-aligned at 555 at the same height, with that text. *)
Fixpoint labelled_amounts (ops : list op) : list (str * str) :=
  match ops with
  | [] => []
  | o :: rest =>
    match o, rest with
    | drawString x y label, drawRightString x' y' amount :: _ =>
      if (x =? 390) && (x' =? 555) && (y =? y')
      then (label, amount) :: labelled_amounts rest
      else labelled_amounts rest
    | _, _ => labelled_amounts rest
    end
  end.

(** The labels of the totals block with the amounts given. *)
Definition totals_block (subtotal freight fuel gst qst total : float)
    : list (str * str) :=
  [ (py "Sous-total / Subtotal:", F64.money subtotal);
    (py "Transport / Freight:", F64.money freight);
    (py "Surcharge carburant / Fuel:", F64.money fuel);
    (py "TPS/GST (5%):", F64.money gst);
    (py "TVQ/QST (9.975%):", F64.money qst);
    (py "TOTAL:", F64.money total) ].

(** The sum of quantity times unit price over the items, accumulated in
    listed order from [acc]. *)
Fixpoint sum_extended (items : list item) (acc : float) : result float :=
  match items with
  | [] => Ok acc
  | it :: rest =>
    extended <- int_mul_float (quantity it) (unit_price it) ;;
    sum_extended rest (F64.add acc extended)
  end.

(** Data for the examples: a tape and two worlds that differ in the day
    only, an empty canvas, a palette, and a few line items. *)
Definition tape0 : tape :=
  [12; 5; 7; 3; 99; 4; 22; 1; 0; 3; 2; 8; 9; 11; 13; 17; 19; 23; 29; 31]%N.
Definition world0 : world (G := tape) :=
  World tape0
    {| year := 2025; month := 12; day := 3; hour := 9; minute := 30; second := 0 |}
    [].

Definition canvas0 : canvas := Canvas (py "page.pdf") [].
Definition palette0 : palette :=
  {| primary := black; secondary := gray; accent := white |}.
Definition dimes : list item :=
  [ (py "X-1", py "ONE AT 0.10", py "EA", 1, dec 10 2);
    (py "X-2", py "ONE AT 0.20", py "EA", 1, dec 20 2);
    (py "X-3", py "ONE AT 0.30", py "EA", 1, dec 30 2) ].
Definition three_at_110 : item :=
  (py "X-4", py "THREE AT 1.10", py "EA", 3, dec 110 2).
Definition long_item : item :=
  (py "X-5", py "FILET DE SAUMON ATLANTIQUE FUMÉ À FROID", py "KG", 2, dec 4250 2).
Definition accented_item : item :=
  (py "X-6", py "PÉTONCLES GÉANTS U10 DRY PACK QC", py "1/5LB", 1, dec 12500 2).
Definition small_catalog : list product := firstn 3 SEAFOOD_PRODUCTS.
Definition world1 : world (G := tape) :=
  World tape0
    {| year := 2025; month := 12; day := 4; hour := 9; minute := 30; second := 0 |}
    [].

(* ================================================================== *)
(** ** The batch driver *)

(** [format(s, '30')] and [format(s, '>10')] on a string: padding with
    spaces to a field of [width], on the right and on the left. *)
Definition ljust (width : nat) (s : str) : str :=
  s ++ repeat 32%N (width - List.length s).
Definition rjust (width : nat) (s : str) : str :=
  repeat 32%N (width - List.length s) ++ s.

(** ["=" * 60] and ["-" * 50] *)
Definition rule60 : str := repeat 61%N 60.
Definition rule50 : str := repeat 45%N 50.

Section Driver.

Context {G : Type} {R : Random G}.

(** The summary loop of [main]: one line per invoice, and the running
    grand total ([0] at first, as for the subtotal). *)
Fixpoint summary_loop (invoices_generated : list (str * str * float))
    (out : list str) (grand_total : float) : list str * float :=
  match invoices_generated with
  | [] => (out, grand_total)
  | (name, filepath, total) :: rest =>
    let out :=
      out ++ [ py "  " ++ ljust 30 name ++ py " $"
               ++ rjust 10 (F64.format_2f total) ] in
    summary_loop rest out (F64.add grand_total total)
  end.

(** Generate all test invoices.  The result carries, besides the value
    [main] returns, the world it leaves and the lines it printed.
    [os.makedirs] creates the output directory; directories are not
    part of the file map, which is keyed by full path. *)
Definition main (w : world (G := G))
    : result (str * list (str * str * float) * world (G := G) * list str) :=
  let output_dir := py "/home/claude/invoices" in
  let out :=
    [ rule60; py "KitchenCommand Invoice Test Suite Generator"; rule60; [] ] in
  let invoices_generated := [] in
  (* Generate Seafood Invoice (Norref) *)
  let out := out ++ [ py "Generating NORREF (Seafood) invoice..." ] in
  '(filename, total, w) <-
    generate_invoice (py "norref") SEAFOOD_PRODUCTS (py "NRF-78234")
      (py "PO-2025-1247") output_dir (Some seafood_items) w ;;
  let invoices_generated :=
    invoices_generated ++ [ (py "Norref (Seafood)", filename, total) ] in
  let out :=
    out ++ [ py "   ✓ Created: " ++ filename;
             py "   Total: " ++ F64.money total; [] ] in
  (* Generate Meat Invoice (Distrobec) *)
  let out := out ++ [ py "Generating DISTROBEC (Meat) invoice..." ] in
  '(filename, total, w) <-
    generate_invoice (py "distrobec") MEAT_PRODUCTS (py "DST-45612")
      (py "PO-2025-1248") output_dir (Some meat_items) w ;;
  let invoices_generated :=
    invoices_generated ++ [ (py "Distrobec (Meat)", filename, total) ] in
  let out :=
    out ++ [ py "   ✓ Created: " ++ filename;
             py "   Total: " ++ F64.money total; [] ] in
  (* Generate Produce Invoice (Courchesne Larose) *)
  let out := out ++ [ py "Generating COURCHESNE LAROSE (Produce) invoice..." ] in
  '(filename, total, w) <-
    generate_invoice (py "courchesne") PRODUCE_PRODUCTS (py "CLR-92341")
      (py "PO-2025-1249") output_dir (Some produce_items) w ;;
  let invoices_generated :=
    invoices_generated ++ [ (py "Courchesne Larose (Produce)", filename, total) ] in
  let out :=
    out ++ [ py "   ✓ Created: " ++ filename;
             py "   Total: " ++ F64.money total; [] ] in
  (* Generate Packaging Invoice (Carrousel) *)
  let out := out ++ [ py "Generating CARROUSEL (Packaging) invoice..." ] in
  '(filename, total, w) <-
    generate_invoice (py "carrousel") PACKAGING_PRODUCTS (py "CRS-12789")
      (py "PO-2025-1250") output_dir (Some packaging_items) w ;;
  let invoices_generated :=
    invoices_generated ++ [ (py "Carrousel (Packaging)", filename, total) ] in
  let out :=
    out ++ [ py "   ✓ Created: " ++ filename;
             py "   Total: " ++ F64.money total; [] ] in
  (* Summary *)
  let out := out ++ [ rule60; py "SUMMARY - Invoices Generated"; rule60 ] in
  let '(out, grand_total) :=
    summary_loop invoices_generated out (S754_zero false) in
  let out :=
    out ++ [ rule50;
             py "  " ++ ljust 30 (py "GRAND TOTAL") ++ py " $"
               ++ rjust 10 (F64.format_2f grand_total);
             [];
             py "All invoices saved to: " ++ output_dir;
             [] ] in
  Ok (output_dir, invoices_generated, w, out).

End Driver.

(* ================================================================== *)
(** ** Further notions used in the statements *)

Definition item_code (it : item) : str :=
  let '(code, _, _, _, _) := it in code.
Definition pack_of (it : item) : str :=
  let '(_, _, pack, _, _) := it in pack.

(** The texts centred ([drawCentredString]) at the abscissa [x]. *)
Definition centred_strings_at (x : Z) (ops : list op) : list str :=
  flat_map (fun o =>
    match o with
    | drawCentredString x' _ text => if x' =? x then [text] else []
    | _ => []
    end) ops.

(** The heights at which a text is written left-aligned at [x]. *)
Definition heights_at (x : Z) (ops : list op) : list Z :=
  flat_map (fun o =>
    match o with
    | drawString x' y _ => if x' =? x then [y] else []
    | _ => []
    end) ops.

(** The lower edges of the filled rectangles of height [h] that start
    at the abscissa [x]. *)
Definition filled_rects_at (x h : Z) (ops : list op) : list Z :=
  flat_map (fun o =>
    match o with
    | rect x' y _ h' _ true => if (x' =? x) && (h' =? h) then [y] else []
    | _ => []
    end) ops.

(** The heights of [n] rows from [y] down, 14 points apart. *)
Fixpoint row_heights (y : Z) (n : nat) : list Z :=
  match n with
  | O => []
  | S n' => y :: row_heights (y - 14) n'
  end.

(** The lower edges of the shading of the rows at the heights [ys],
    every other row starting with the first when [even] holds. *)
Fixpoint shaded_from (even : bool) (ys : list Z) : list Z :=
  match ys with
  | [] => []
  | y :: rest => (if even then [y - 4] else []) ++ shaded_from (negb even) rest
  end.

(** What a file holds after the writes [fs], newest first: the content
    written to its path last, a write to a path that was written before
    replacing what was there. *)
Fixpoint written_at (fs : list (str * list op)) (path : str)
    : option (list op) :=
  match fs with
  | [] => None
  | (p, content) :: rest =>
    if Str.eqb p path then Some content else written_at rest path
  end.

(** The file at [path] in the world [w]. *)
Definition file_at {G} (w : world (G := G)) (path : str) : option (list op) :=
  written_at (files w) path.

(** A float that is zero, positive and finite, or plus infinity. *)
Definition nonneg (x : float) : Prop :=
  match x with
  | S754_zero _ => True
  | S754_finite false _ _ => True
  | S754_infinity false => True
  | _ => False
  end.

(** A finite float that is not negative. *)
Definition finite_nonneg (x : float) : Prop :=
  match x with
  | S754_zero _ => True
  | S754_finite false _ _ => True
  | _ => False
  end.

(* ================================================================== *)
(** * Properties *)

(** ** The tape generator obeys the laws of [random] *)

Lemma randbelow_lt n g : (0 < n)%nat -> (fst (randbelow n g) < n)%nat.
Proof.
  intros Hn. destruct g as [|r g]; simpl; [exact Hn|].
  apply Nat.mod_upper_bound. lia.
Qed.

Lemma pool_step_perm {A} (pool : list A) j x moved :
  nth_error pool j = Some x ->
  nth_error pool (List.length pool - 1)%nat = Some moved ->
  Permutation pool
    (x :: firstn (List.length pool - 1)%nat
            (firstn j pool ++ moved :: skipn (S j) pool)).
Proof.
  intros Hj Hlast.
  destruct (nth_error_split _ _ Hj) as (l1 & l2 & -> & Hlen).
  assert (Hf : firstn j (l1 ++ x :: l2) = l1).
  { rewrite <- Hlen, firstn_app, Nat.sub_diag, firstn_all. simpl.
    apply app_nil_r. }
  assert (Hs : skipn (S j) (l1 ++ x :: l2) = l2).
  { rewrite <- Hlen. replace (l1 ++ x :: l2) with ((l1 ++ [x]) ++ l2)
      by (rewrite <- app_assoc; reflexivity).
    replace (S (List.length l1)) with (List.length (l1 ++ [x]))
      by (rewrite length_app; simpl; lia).
    rewrite skipn_app, Nat.sub_diag, skipn_all. reflexivity. }
  rewrite Hf, Hs.
  destruct (exists_last (l := x :: l2)) as (front & z & Hfz); [discriminate|].
  assert (Hz : z = moved).
  { rewrite length_app in Hlast. simpl in Hlast.
    assert (Hl : List.length (x :: l2) = List.length (front ++ [z]))
      by (rewrite Hfz; reflexivity).
    rewrite length_app in Hl. simpl in Hl.
    rewrite nth_error_app2 in Hlast by lia.
    rewrite Hfz in Hlast.
    rewrite nth_error_app2 in Hlast by lia.
    replace (List.length l1 + S (List.length l2) - 1 - List.length l1
             - List.length front)%nat with O in Hlast by lia.
    simpl in Hlast. congruence. }
  subst z.
  destruct front as [|y front]; simpl in Hfz.
  - injection Hfz as -> ->.
    rewrite length_app. simpl.
    replace (List.length l1 + 1 - 1)%nat with (List.length l1 + 0)%nat by lia.
    rewrite firstn_app_2. simpl. rewrite app_nil_r.
    symmetry. apply Permutation_cons_append.
  - injection Hfz as <- ->.
    assert (Hcut : firstn (List.length (l1 ++ x :: front ++ [moved]) - 1)%nat
              (l1 ++ moved :: front ++ [moved]) = l1 ++ moved :: front).
    { replace (l1 ++ moved :: front ++ [moved])
        with ((l1 ++ moved :: front) ++ [moved])
        by (rewrite <- app_assoc; reflexivity).
      replace (List.length (l1 ++ x :: front ++ [moved]) - 1)%nat
        with (List.length (l1 ++ moved :: front) + 0)%nat
        by (rewrite !length_app; simpl; rewrite length_app; simpl; lia).
      rewrite firstn_app_2. simpl. apply app_nil_r. }
    rewrite Hcut.
    symmetry. apply Permutation_cons_app, Permutation_app_head.
    apply Permutation_cons_append.
Qed.

Lemma sample_pool_perm {A} k : forall (pool : list A) g,
  (k <= List.length pool)%nat ->
  List.length (fst (sample_pool pool k g)) = k
  /\ exists rest, Permutation pool (fst (sample_pool pool k g) ++ rest).
Proof.
  induction k as [|k IH]; intros pool g Hk; cbn [sample_pool].
  - split; [reflexivity|]. exists pool. reflexivity.
  - pose proof (randbelow_lt (List.length pool) g ltac:(lia)) as Hj.
    destruct (randbelow (List.length pool) g) as [j g1]. simpl in Hj.
    destruct (nth_error pool j) as [x|] eqn:Ex;
      [|apply nth_error_None in Ex; lia].
    destruct (nth_error pool (List.length pool - 1)) as [moved|] eqn:Em;
      [|apply nth_error_None in Em; lia].
    pose proof (pool_step_perm pool j x moved Ex Em) as Hp.
    set (pool' := firstn (List.length pool - 1)
                    (firstn j pool ++ moved :: skipn (S j) pool)) in *.
    assert (Hlen' : (k <= List.length pool')%nat).
    { apply Permutation_length in Hp. simpl in Hp. lia. }
    destruct (IH pool' g1 Hlen') as (Hl & rest & Hr).
    destruct (sample_pool pool' k g1) as [picked g2]. cbn [fst List.length] in *.
    split; [congruence|].
    exists rest. rewrite Hp. constructor. exact Hr.
Qed.

Lemma sample_pool_map {A B} (f : A -> B) k : forall (pool : list A) g,
  sample_pool (map f pool) k g =
    (map f (fst (sample_pool pool k g)), snd (sample_pool pool k g)).
Proof.
  induction k as [|k IH]; intros pool g; cbn [sample_pool]; [reflexivity|].
  rewrite length_map.
  destruct (randbelow (List.length pool) g) as [j g1].
  rewrite !nth_error_map.
  destruct (nth_error pool j) as [x|]; cbn [option_map]; [|reflexivity].
  destruct (nth_error pool (List.length pool - 1)) as [moved|];
    cbn [option_map]; [|reflexivity].
  rewrite firstn_map, skipn_map, <- map_cons, <- map_app, firstn_map.
  rewrite IH.
  destruct (sample_pool _ k g1) as [picked g2]. reflexivity.
Qed.

Lemma combine_seq_nth {A} (l : list A) : forall s i x,
  In (i, x) (combine (seq s (List.length l)) l) ->
  (s <= i)%nat /\ nth_error l (i - s) = Some x.
Proof.
  induction l as [|a l IH]; intros s i x Hin; simpl in Hin; [contradiction|].
  destruct Hin as [Heq|Hin].
  - injection Heq as <- <-. rewrite Nat.sub_diag. split; [lia|reflexivity].
  - destruct (IH _ _ _ Hin) as [Hle Hn]. split; [lia|].
    replace (i - s)%nat with (S (i - S s)) by lia. exact Hn.
Qed.

Lemma combine_seq_fst {A} (l : list A) s :
  map fst (combine (seq s (List.length l)) l) = seq s (List.length l).
Proof.
  revert s; induction l as [|a l IH]; intros s; simpl; [reflexivity|].
  now rewrite IH.
Qed.

Lemma combine_seq_snd {A} (l : list A) s :
  map snd (combine (seq s (List.length l)) l) = l.
Proof.
  revert s; induction l as [|a l IH]; intros s; simpl; [reflexivity|].
  now rewrite IH.
Qed.

Lemma sample_pool_drawn {A} (population : list A) k g :
  (k <= List.length population)%nat ->
  List.length (fst (sample_pool population k g)) = k
  /\ drawn_from population (fst (sample_pool population k g)).
Proof.
  intros Hk.
  set (P := combine (seq 0 (List.length population)) population).
  assert (HP : population = map snd P)
    by (symmetry; apply combine_seq_snd).
  assert (HlenP : List.length P = List.length population).
  { unfold P. rewrite length_combine, length_seq. lia. }
  destruct (sample_pool_perm k P g ltac:(lia)) as (Hl & rest & Hperm).
  rewrite HP at 1 3. rewrite sample_pool_map. simpl.
  rewrite length_map. split; [exact Hl|].
  exists (map fst (fst (sample_pool P k g))). split.
  - apply (Permutation_map fst) in Hperm. rewrite map_app in Hperm.
    unfold P in Hperm at 1. rewrite combine_seq_fst in Hperm.
    eapply NoDup_app_remove_r, Permutation_NoDup; [exact Hperm|].
    apply seq_NoDup.
  - assert (Hsub : forall p, In p (fst (sample_pool P k g)) -> In p P).
    { intros p Hp. eapply Permutation_in; [symmetry; exact Hperm|].
      apply in_or_app. now left. }
    revert Hsub. generalize (fst (sample_pool P k g)).
    intros R; induction R as [|[i x] R IH]; intros Hsub; simpl; constructor.
    + destruct (combine_seq_nth population 0 i x (Hsub _ (or_introl eq_refl)))
        as [_ Hn]. now rewrite Nat.sub_0_r in Hn.
    + apply IH. intros p Hp. apply Hsub. now right.
Qed.

Lemma tape_laws : RandomLaws tape.
Proof.
  split.
  - intros a b g Hab. simpl.
    destruct (Z.ltb_spec b a) as [Hlt|_]; [lia|].
    pose proof (randbelow_lt (Z.to_nat (b - a + 1)) g ltac:(lia)) as Hr.
    destruct (randbelow _ g) as [r g']. simpl in Hr.
    exists (a + Z.of_nat r), g'. split; [reflexivity|lia].
  - intros A population k g Hk. simpl.
    destruct (Z.ltb_spec k 0) as [Hlt|_]; [lia|].
    destruct (Z.ltb_spec (Z.of_nat (List.length population)) k) as [Hlt|_];
      [lia|]. simpl.
    destruct (sample_pool_drawn population (Z.to_nat k) g ltac:(lia))
      as [Hl Hd].
    destruct (sample_pool population (Z.to_nat k) g) as [picked g'].
    simpl in *. exists picked, g'. split; [reflexivity|]. split; [lia|exact Hd].
Qed.


(** ** Strings and dictionaries *)

Lemma Str_eqb_spec a b : reflect (a = b) (Str.eqb a b).
Proof.
  revert b; induction a as [|x a IH]; intros [|y b]; simpl;
    try (constructor; congruence).
  destruct (N.eqb_spec x y) as [->|ne]; simpl.
  - destruct (IH b) as [->|ne]; constructor; congruence.
  - constructor; congruence.
Qed.

Lemma dict_get_In {V} (d : list (str * V)) k :
  In k (map fst d) -> exists v, dict_get d k = Ok v.
Proof.
  induction d as [|[k' v] d IH]; simpl; [contradiction|].
  intros H. destruct (Str_eqb_spec k' k) as [->|ne]; [eauto|].
  destruct H as [H|H]; [contradiction|]. auto.
Qed.

Lemma colors_keys : map fst SUPPLIER_COLORS = map fst SUPPLIERS.
Proof. reflexivity. Qed.

Lemma valid_key_get k :
  valid_key k ->
  exists s cs, dict_get SUPPLIERS k = Ok s /\ dict_get SUPPLIER_COLORS k = Ok cs.
Proof.
  intros H. destruct (dict_get_In SUPPLIERS k H) as [s Hs].
  unfold valid_key in H. rewrite <- colors_keys in H.
  destruct (dict_get_In SUPPLIER_COLORS k H) as [cs Hcs]. eauto.
Qed.

Lemma dict_get_missing {V} (d : list (str * V)) k :
  ~ In k (map fst d) -> dict_get d k = Raise (KeyError k).
Proof.
  induction d as [|[k' v] d IH]; simpl; [reflexivity|].
  intros H. destruct (Str_eqb_spec k' k) as [->|ne]; [tauto|].
  apply IH. tauto.
Qed.

Lemma str_eq_dec (a b : str) : {a = b} + {a <> b}.
Proof. apply list_eq_dec, N.eq_dec. Qed.

Lemma valid_key_dec k : {valid_key k} + {~ valid_key k}.
Proof. apply in_dec, str_eq_dec. Qed.

(** ** The canvas only grows *)

Lemma emit_emit c a b : emit (emit c a) b = emit c (a ++ b).
Proof. unfold emit; simpl. now rewrite app_assoc. Qed.

Lemma emit_nil c : emit c [] = c.
Proof. destruct c; unfold emit; simpl. now rewrite app_nil_r. Qed.

Lemma strings_at_app x a b :
  strings_at x (a ++ b) = strings_at x a ++ strings_at x b.
Proof. apply flat_map_app. Qed.

Lemma right_strings_at_app x a b :
  right_strings_at x (a ++ b) = right_strings_at x a ++ right_strings_at x b.
Proof. apply flat_map_app. Qed.

Ltac get_key H :=
  let s := fresh "s" in let cs := fresh "cs" in
  let Hs := fresh "Hs" in let Hcs := fresh "Hcs" in
  destruct (valid_key_get _ H) as (s & cs & Hs & Hcs).

Lemma draw_header_valid c k inv d po :
  valid_key k ->
  exists ops,
    draw_header c 612 792 k inv d po = Ok (792 - 130, emit c ops)
    /\ strings_at 95 ops = [] /\ right_strings_at 555 ops = [].
Proof.
  intros H. get_key H. unfold draw_header. rewrite Hs, Hcs. cbn [bind].
  rewrite !emit_emit. eexists. repeat split.
Qed.

Lemma draw_addresses_valid c y k :
  valid_key k ->
  exists ops,
    draw_addresses c y k = Ok (y - 70, emit c ops)
    /\ strings_at 95 ops = [] /\ right_strings_at 555 ops = [].
Proof.
  intros H. get_key H. unfold draw_addresses. rewrite Hs, Hcs. cbn [bind].
  rewrite !emit_emit. eexists. repeat split.
Qed.

Lemma draw_footer_valid c y k :
  valid_key k ->
  exists ops,
    draw_footer c y 612 792 k = Ok (emit c ops)
    /\ strings_at 95 ops = [] /\ right_strings_at 555 ops = [].
Proof.
  intros H. get_key H. unfold draw_footer. rewrite Hs, Hcs. cbn [bind].
  eexists. repeat split.
Qed.


Lemma draw_totals_valid c y w subtotal k freight fuel :
  valid_key k ->
  let taxable := F64.add (F64.add subtotal freight) fuel in
  let gst := F64.mul taxable (dec 5 2) in
  let qst := F64.mul taxable (dec 9975 5) in
  let total := F64.add (F64.add taxable gst) qst in
  exists ops,
    draw_totals c y w subtotal k (Some freight) (Some fuel)
      = Ok (y - 15 - 14 - 14 - 14 - 14 - 20 - 20, total, emit c ops)
    /\ right_strings_at 555 ops
       = [F64.money subtotal; F64.money freight; F64.money fuel;
          F64.money gst; F64.money qst; F64.money total]
    /\ strings_at 95 ops = [].
Proof.
  intros H. get_key H. unfold draw_totals. rewrite Hs, Hcs. cbn [bind].
  rewrite !emit_emit. eexists. repeat split.
Qed.

Lemma draw_line_items_loop_spec : forall items c w y s r,
  match draw_line_items_loop c w items y s r with
  | Ok (y', s', c') =>
    sum_extended items s = Ok s'
    /\ y' = y - 14 * Z.of_nat (List.length items)
    /\ exists ops,
         c' = emit c ops
         /\ strings_at 95 ops
            = map (fun it =>
                     if 32 <? Str.len (description it)
                     then firstn 30 (description it) ++ py ".."
                     else description it) items
         /\ Forall2 (fun it text =>
                       exists extended,
                         int_mul_float (quantity it) (unit_price it) = Ok extended
                         /\ text = F64.money extended)
              items (right_strings_at 555 ops)
  | Raise e => sum_extended items s = Raise e
  end.
Proof.
  induction items as [|it items IH]; intros c w y s r.
  - cbn [draw_line_items_loop sum_extended List.length map].
    split; [reflexivity|]. split; [lia|].
    exists []. rewrite emit_nil. repeat split. constructor.
  - destruct it as [[[[code desc] pack] qty] price].
    cbn [draw_line_items_loop sum_extended quantity unit_price].
    destruct (int_mul_float qty price) as [extended|e] eqn:Hext;
      cbn [bind]; [|reflexivity].
    match goal with
    | |- context [draw_line_items_loop ?c1 w items ?y1 ?s1 ?r1] =>
      specialize (IH c1 w y1 s1 r1);
      destruct (draw_line_items_loop c1 w items y1 s1 r1)
        as [[[y' s'] c']|e]; [|exact IH]
    end.
    destruct IH as (Hsum & Hy & ops & Hc & Hdesc & Hamt).
    split; [exact Hsum|]. split.
    { rewrite Hy. cbn [List.length]. lia. }
    destruct (r mod 2 =? 0); rewrite ?emit_emit in Hc;
      (eexists; split; [exact Hc|]);
      rewrite !strings_at_app, !right_strings_at_app, Hdesc;
      (split; [reflexivity|]);
      (constructor; [|exact Hamt]);
      exists extended; (split; [exact Hext|reflexivity]).
Qed.

Lemma draw_line_items_spec c y w items cs :
  match draw_line_items c y w items cs with
  | Ok (y', s', c') =>
    sum_extended items (S754_zero false) = Ok s'
    /\ y' = y - 5 - 14 * Z.of_nat (List.length items)
    /\ exists ops amounts,
         c' = emit c ops
         /\ strings_at 95 ops
            = py "Description"
              :: map (fun it =>
                        if 32 <? Str.len (description it)
                        then firstn 30 (description it) ++ py ".."
                        else description it) items
         /\ right_strings_at 555 ops = py "Montant" :: amounts
         /\ Forall2 (fun it text =>
                       exists extended,
                         int_mul_float (quantity it) (unit_price it) = Ok extended
                         /\ text = F64.money extended)
              items amounts
  | Raise e => sum_extended items (S754_zero false) = Raise e
  end.
Proof.
  unfold draw_line_items.
  match goal with
  | |- context [draw_line_items_loop ?c1 w items ?y1 ?s1 ?r1] =>
    pose proof (draw_line_items_loop_spec items c1 w y1 s1 r1) as H;
    destruct (draw_line_items_loop c1 w items y1 s1 r1)
      as [[[y' s'] c']|e]; [|exact H]
  end.
  destruct H as (Hsum & Hy & ops & Hc & Hdesc & Hamt).
  split; [exact Hsum|]. split; [exact Hy|].
  rewrite !emit_emit in Hc.
  eexists. exists (right_strings_at 555 ops). split; [exact Hc|].
  rewrite !strings_at_app, !right_strings_at_app, Hdesc.
  repeat split. exact Hamt.
Qed.

Lemma subtotal_of_draw_line_items c y w items cs :
  subtotal_of (draw_line_items c y w items cs)
  = sum_extended items (S754_zero false).
Proof.
  pose proof (draw_line_items_spec c y w items cs) as H.
  destruct (draw_line_items c y w items cs) as [[[y' s'] c']|e];
    cbn [subtotal_of bind].
  - now destruct H as [-> _].
  - now rewrite H.
Qed.

(** ** One invoice from explicit items *)

Section Explicit.

Context {G : Type} {R : Random G}.

Lemma generate_invoice_explicit k products inv po out items (w : world (G := G)) :
  valid_key k ->
  exists c0 cs,
    cv_filename c0
      = path_join out (Str.upper k ++ py "_INV_" ++ inv ++ py ".pdf")
    /\ strings_at 95 (cv_ops c0) = []
    /\ right_strings_at 555 (cv_ops c0) = []
    /\ generate_invoice k products inv po out (Some items) w
       = ('(y, subtotal, c) <- draw_line_items c0 552 612 items cs ;;
          '(y, total, c) <-
            draw_totals c (y - 20) 612 subtotal k
              (Some (F64.round2 (F64.add (dec 25 0) (F64.mul subtotal (dec 2 2)))))
              (Some (F64.round2 (F64.add (dec 8 0) (F64.mul subtotal (dec 1 2))))) ;;
          c <- draw_footer c (y - 20) 612 792 k ;;
          Ok (cv_filename c0, total, save c w)).
Proof.
  intros H. get_key H. unfold generate_invoice. cbn [letter].
  rewrite Hs, Hcs. cbn [bind].
  match goal with
  | |- context [draw_header ?c _ _ k inv ?d po] =>
    destruct (draw_header_valid c k inv d po H) as (ops1 & -> & Ha1 & Hb1)
  end.
  cbn [bind].
  match goal with
  | |- context [draw_addresses ?c ?y k] =>
    destruct (draw_addresses_valid c y k H) as (ops2 & -> & Ha2 & Hb2)
  end.
  cbn [bind]. rewrite emit_emit.
  match goal with
  | |- context [draw_line_items ?c _ _ _ _] => exists c, cs
  end.
  split; [reflexivity|].
  cbn [emit cv_ops app].
  rewrite strings_at_app, right_strings_at_app, Ha1, Ha2, Hb1, Hb2.
  destruct w as [g t fs]. repeat split.
Qed.

Lemma generate_invoice_explicit_run k products inv po out items
    (w : world (G := G)) :
  valid_key k ->
  let fname := path_join out (Str.upper k ++ py "_INV_" ++ inv ++ py ".pdf") in
  match sum_extended items (S754_zero false) with
  | Ok subtotal =>
    let freight := F64.round2 (F64.add (dec 25 0) (F64.mul subtotal (dec 2 2))) in
    let fuel := F64.round2 (F64.add (dec 8 0) (F64.mul subtotal (dec 1 2))) in
    let taxable := F64.add (F64.add subtotal freight) fuel in
    let gst := F64.mul taxable (dec 5 2) in
    let qst := F64.mul taxable (dec 9975 5) in
    let total := F64.add (F64.add taxable gst) qst in
    exists page amounts,
      generate_invoice k products inv po out (Some items) w
        = Ok (fname, total, World (rng w) (now w) ((fname, page) :: files w))
      /\ strings_at 95 page
         = py "Description"
           :: map (fun it =>
                     if 32 <? Str.len (description it)
                     then firstn 30 (description it) ++ py ".."
                     else description it) items
      /\ right_strings_at 555 page
         = py "Montant" :: amounts
           ++ [F64.money subtotal; F64.money freight; F64.money fuel;
               F64.money gst; F64.money qst; F64.money total]
      /\ Forall2 (fun it text =>
                    exists extended,
                      int_mul_float (quantity it) (unit_price it) = Ok extended
                      /\ text = F64.money extended)
           items amounts
  | Raise e => generate_invoice k products inv po out (Some items) w = Raise e
  end.
Proof.
  intros H fname.
  destruct (generate_invoice_explicit k products inv po out items w H)
    as (c0 & cs & Hf & Ha0 & Hb0 & ->).
  pose proof (draw_line_items_spec c0 552 612 items cs) as Hl.
  destruct (draw_line_items c0 552 612 items cs) as [[[y1 s1] c1]|e];
    cbn [bind]; [|now rewrite Hl].
  destruct Hl as (-> & _ & ops & amounts & -> & Ha & Hb & Hamt).
  cbv zeta.
  match goal with
  | |- context [draw_totals ?c ?y 612 s1 k (Some ?fr) (Some ?fu)] =>
    destruct (draw_totals_valid c y 612 s1 k fr fu H) as (opsT & -> & HbT & HaT)
  end.
  cbn [bind].
  match goal with
  | |- context [draw_footer ?c ?y 612 792 k] =>
    destruct (draw_footer_valid c y k H) as (opsF & -> & HaF & HbF)
  end.
  cbn [bind].
  eexists. exists amounts. split.
  { unfold save, fname. rewrite <- Hf. reflexivity. }
  cbn [emit cv_ops].
  rewrite !strings_at_app, !right_strings_at_app.
  rewrite Ha0, Hb0, Ha, Hb, HaT, HbT, HaF, HbF, !app_nil_r.
  repeat split. exact Hamt.
Qed.

End Explicit.

Lemma generate_invoice_Ok_valid {G} {R : Random G} k products inv po out
    selected (w : world (G := G)) r :
  generate_invoice k products inv po out selected w = Ok r -> valid_key k.
Proof.
  intros H. destruct (valid_key_dec k) as [Hk|Hk]; [exact Hk|].
  unfold generate_invoice in H. cbn [letter] in H.
  rewrite (dict_get_missing SUPPLIERS k Hk) in H. discriminate H.
Qed.

(** ** The totals block and the header box of a page *)

Lemma labelled_amounts_pair y label amount rest :
  labelled_amounts (drawString 390 y label :: drawRightString 555 y amount :: rest)
  = (label, amount) :: labelled_amounts rest.
Proof. cbn [labelled_amounts]. rewrite !Z.eqb_refl. reflexivity. Qed.

Lemma labelled_amounts_cons o rest :
  match o with drawString x _ _ => x =? 390 | _ => false end = false ->
  labelled_amounts (o :: rest) = labelled_amounts rest.
Proof.
  destruct o; cbn [labelled_amounts]; try reflexivity.
  intros ->. destruct rest as [|[] ?]; reflexivity.
Qed.

Lemma labelled_amounts_skip a b :
  strings_at 390 a = [] -> labelled_amounts (a ++ b) = labelled_amounts b.
Proof.
  induction a as [|o a IH]; [reflexivity|].
  intros H. unfold strings_at in H. cbn [flat_map] in H.
  apply app_eq_nil in H. destruct H as [Ho Ha].
  cbn [app]. rewrite labelled_amounts_cons; [exact (IH Ha)|].
  destruct o; try reflexivity.
  destruct (_ =? 390); [discriminate Ho|reflexivity].
Qed.

Ltac walk_labels :=
  repeat first [ rewrite labelled_amounts_pair
               | rewrite labelled_amounts_cons by reflexivity ].

Lemma draw_totals_block c y w subtotal k freight fuel :
  valid_key k ->
  let freight' := match freight with Some v => v | None => dec 3500 2 end in
  let fuel' := match fuel with Some v => v | None => dec 1250 2 end in
  let taxable := F64.add (F64.add subtotal freight') fuel' in
  let gst := F64.mul taxable (dec 5 2) in
  let qst := F64.mul taxable (dec 9975 5) in
  let total := F64.add (F64.add taxable gst) qst in
  exists ops,
    draw_totals c y w subtotal k freight fuel
      = Ok (y - 15 - 14 - 14 - 14 - 14 - 20 - 20, total, emit c ops)
    /\ right_strings_at 555 ops
       = [F64.money subtotal; F64.money freight'; F64.money fuel';
          F64.money gst; F64.money qst; F64.money total]
    /\ right_strings_at 562 ops = []
    /\ forall rest,
         labelled_amounts (ops ++ rest)
         = totals_block subtotal freight' fuel' gst qst total
           ++ labelled_amounts rest.
Proof.
  intros H. get_key H. unfold draw_totals. rewrite Hs, Hcs. cbn [bind].
  rewrite !emit_emit. eexists. split; [reflexivity|].
  split; [reflexivity|]. split; [reflexivity|].
  intros rest. cbn [app]. walk_labels. reflexivity.
Qed.

Lemma draw_line_items_loop_columns : forall items c w y s r y' s' c',
  draw_line_items_loop c w items y s r = Ok (y', s', c') ->
  exists ops,
    c' = emit c ops /\ strings_at 390 ops = [] /\ right_strings_at 562 ops = [].
Proof.
  induction items as [|it items IH]; intros c w y s r y' s' c' H.
  - cbn [draw_line_items_loop] in H. injection H as <- <- <-.
    exists []. rewrite emit_nil. repeat split.
  - destruct it as [[[[code desc] pack] qty] price].
    cbn [draw_line_items_loop] in H.
    destruct (int_mul_float qty price) as [extended|e]; cbn [bind] in H;
      [|discriminate H].
    apply IH in H. destruct H as (ops & Hc & H390 & H562).
    destruct (r mod 2 =? 0); rewrite ?emit_emit in Hc;
      (eexists; split; [exact Hc|]);
      rewrite !strings_at_app, !right_strings_at_app, H390, H562;
      split; reflexivity.
Qed.

Lemma draw_line_items_columns c y w items cs y' s' c' :
  draw_line_items c y w items cs = Ok (y', s', c') ->
  exists ops,
    c' = emit c ops /\ strings_at 390 ops = [] /\ right_strings_at 562 ops = [].
Proof.
  unfold draw_line_items. intros H.
  apply draw_line_items_loop_columns in H.
  destruct H as (ops & Hc & H390 & H562).
  rewrite !emit_emit in Hc. eexists. split; [exact Hc|].
  rewrite !strings_at_app, !right_strings_at_app, H390, H562.
  split; reflexivity.
Qed.

Section Page.

Context {G : Type} {R : Random G}.

(** The totals block and the header box of the page of an invoice. *)
Lemma generate_invoice_totals_block k products inv po out items
    (w : world (G := G)) :
  valid_key k ->
  let fname := path_join out (Str.upper k ++ py "_INV_" ++ inv ++ py ".pdf") in
  match sum_extended items (S754_zero false) with
  | Ok subtotal =>
    let freight := F64.round2 (F64.add (dec 25 0) (F64.mul subtotal (dec 2 2))) in
    let fuel := F64.round2 (F64.add (dec 8 0) (F64.mul subtotal (dec 1 2))) in
    let taxable := F64.add (F64.add subtotal freight) fuel in
    let gst := F64.mul taxable (dec 5 2) in
    let qst := F64.mul taxable (dec 9975 5) in
    let total := F64.add (F64.add taxable gst) qst in
    exists page,
      generate_invoice k products inv po out (Some items) w
        = Ok (fname, total, World (rng w) (now w) ((fname, page) :: files w))
      /\ labelled_amounts page
         = totals_block subtotal freight fuel gst qst total
      /\ right_strings_at 562 page
         = [inv; strftime_dmY (now w); py "MTL-458923"; po]
  | Raise e => generate_invoice k products inv po out (Some items) w = Raise e
  end.
Proof.
  intros H fname. get_key H.
  unfold generate_invoice, draw_header, draw_addresses, draw_footer.
  cbn [letter]. rewrite Hs, Hcs. cbn [bind]. rewrite !emit_emit.
  match goal with
  | |- context [draw_line_items ?c ?y 612 items cs] =>
    pose proof (draw_line_items_spec c y 612 items cs) as Hl;
    pose proof (draw_line_items_columns c y 612 items cs) as Hc;
    destruct (draw_line_items c y 612 items cs) as [[[y1 s1] c1]|e];
      [|rewrite Hl; reflexivity]
  end.
  destruct Hl as (-> & _).
  destruct (Hc _ _ _ eq_refl) as (opsL & -> & L390 & L562).
  cbn [bind]. cbv zeta. rewrite emit_emit.
  match goal with
  | |- context [draw_totals ?c ?y 612 s1 k ?fr ?fu] =>
    destruct (draw_totals_block c y 612 s1 k fr fu H)
      as (opsT & -> & _ & T562 & Tlab)
  end.
  cbn [bind]. rewrite !emit_emit.
  eexists. split; [reflexivity|].
  cbn [emit cv_ops]. rewrite app_nil_l. split.
  - rewrite <- !app_assoc.
    repeat rewrite labelled_amounts_skip by first [exact L390|reflexivity].
    rewrite Tlab. walk_labels. cbn [labelled_amounts]. apply app_nil_r.
  - rewrite !right_strings_at_app, L562, T562. reflexivity.
Qed.

(** Two runs whose clocks show the same date. *)
Lemma generate_invoice_same_date k products1 products2 inv po out items
    (w1 w2 : world (G := G)) :
  strftime_dmY (now w1) = strftime_dmY (now w2) ->
  match generate_invoice k products1 inv po out (Some items) w1,
        generate_invoice k products2 inv po out (Some items) w2 with
  | Ok (f1, t1, w1'), Ok (f2, t2, w2') =>
    exists file, files w1' = file :: files w1 /\ files w2' = file :: files w2
  | Raise e1, Raise e2 => e1 = e2
  | _, _ => False
  end.
Proof.
  intros Hdate. unfold generate_invoice. cbn [letter]. rewrite Hdate.
  repeat match goal with
  | |- context [bind ?e _] =>
    lazymatch e with
    | context [bind] => fail
    | _ => destruct e as [?|?]; cbn [bind]; [|reflexivity]
    end
  | |- context [let (_, _) := ?p in _] => destruct p
  end.
  cbn [save files]. eexists. split; reflexivity.
Qed.

End Page.

(** ** Floating-point addition *)

Lemma F64_add_comm x y : F64.add x y = F64.add y x.
Proof.
  destruct x as [sx|sx| |sx mx ex], y as [sy|sy| |sy my ey];
    try reflexivity; try (destruct sx, sy; reflexivity).
  unfold F64.add, SFadd. rewrite (Z.min_comm ey ex), Z.add_comm. reflexivity.
Qed.

Lemma F64_add_zero_swap a b :
  F64.add (F64.add (S754_zero false) a) b
  = F64.add (F64.add (S754_zero false) b) a.
Proof.
  destruct a as [sa|sa| |sa ma ea], b as [sb|sb| |sb mb eb];
    try reflexivity; try (destruct sa, sb; reflexivity);
    try (destruct sa; reflexivity); try (destruct sb; reflexivity).
  change (F64.add (S754_zero false) (S754_finite sa ma ea))
    with (S754_finite sa ma ea).
  change (F64.add (S754_zero false) (S754_finite sb mb eb))
    with (S754_finite sb mb eb).
  apply F64_add_comm.
Qed.

Lemma int_mul_float_raise i x e : int_mul_float i x = Raise e -> e = OverflowError.
Proof.
  unfold int_mul_float. destruct (F64.of_int i); [discriminate|congruence].
Qed.

Lemma sum_extended_swap a b rest :
  sum_extended (a :: b :: rest) (S754_zero false)
  = sum_extended (b :: a :: rest) (S754_zero false).
Proof.
  cbn [sum_extended].
  destruct (int_mul_float (quantity a) (unit_price a)) as [ea|e1] eqn:Ha,
           (int_mul_float (quantity b) (unit_price b)) as [eb|e2] eqn:Hb;
    cbn [bind]; try reflexivity.
  - now rewrite F64_add_zero_swap.
  - apply int_mul_float_raise in Ha, Hb. congruence.
Qed.

(** Quantities that convert to a float. *)
Lemma sum_extended_total items : forall acc,
  Forall (fun it => F64.of_int (quantity it) <> None) items ->
  exists s, sum_extended items acc = Ok s.
Proof.
  induction items as [|it items IH]; intros acc H; cbn [sum_extended].
  - eauto.
  - inversion H as [|? ? Hq Hrest]; subst.
    unfold int_mul_float. destruct (F64.of_int (quantity it)); [|congruence].
    cbn [bind]. apply IH, Hrest.
Qed.

(** ** Selection at distinct positions *)

Lemma Forall2_nth_In {A} (population : list A) idx picked x :
  Forall2 (fun i y => nth_error population i = Some y) idx picked ->
  In x picked -> exists i, In i idx /\ nth_error population i = Some x.
Proof.
  induction 1 as [|i y idx picked Hi _ IH]; simpl; [contradiction|].
  intros [<-|Hin]; [eauto|].
  destruct (IH Hin) as (j & Hj & Hn). eauto.
Qed.

Lemma drawn_from_NoDup {A} (population picked : list A) :
  drawn_from population picked -> NoDup population -> NoDup picked.
Proof.
  intros (idx & Hnd & HF) Hpop. revert Hnd.
  induction HF as [|i y idx picked Hi HF IH]; intros Hnd; constructor.
  - intros Hin. destruct (Forall2_nth_In _ _ _ _ HF Hin) as (j & Hj & Hn).
    inversion Hnd as [|? ? Hnotin _]; subst. apply Hnotin.
    assert (i = j); [|now subst].
    rewrite NoDup_nth_error in Hpop. apply Hpop; [|congruence].
    apply nth_error_Some. congruence.
  - apply IH. now inversion Hnd.
Qed.

Section Selection.

Context {G : Type} {R : Random G} {L : RandomLaws G}.

Lemma select_items_loop_spec : forall sampled selected g,
  exists added g',
    select_items_loop sampled selected g = Ok (selected ++ added, g')
    /\ map product_of added = sampled
    /\ Forall (fun it => 1 <= quantity it <= 5) added.
Proof.
  induction sampled as [|[[[code desc] pack] price] sampled IH];
    intros selected g; cbn [select_items_loop].
  - exists [], g. rewrite app_nil_r. repeat split. constructor.
  - destruct (randint_range 1 5 g ltac:(lia)) as (qty & g1 & -> & Hq).
    cbn [bind].
    destruct (IH (selected ++ [(code, desc, pack, qty, price)]) g1)
      as (added & g' & -> & Hmap & Hall).
    exists ((code, desc, pack, qty, price) :: added), g'.
    rewrite <- app_assoc. cbn [app map product_of]. rewrite Hmap.
    repeat split. constructor; [exact Hq|exact Hall].
Qed.

Lemma select_items_spec products g :
  exists num_items items g',
    select_items products g = Ok (items, g')
    /\ 8 <= num_items <= 15
    /\ Z.of_nat (List.length items)
       = Z.min num_items (Z.of_nat (List.length products))
    /\ drawn_from products (map product_of items)
    /\ Forall (fun it => 1 <= quantity it <= 5) items.
Proof.
  unfold select_items.
  destruct (randint_range 8 15 g ltac:(lia)) as (n & g1 & -> & Hn).
  cbn [bind].
  destruct (sample_distinct _ products
              (Z.min n (Z.of_nat (List.length products))) g1 ltac:(lia))
    as (picked & g2 & -> & Hlen & Hd).
  cbn [bind].
  destruct (select_items_loop_spec picked [] g2)
    as (items & g' & -> & Hmap & Hall).
  exists n, items, g'. cbn [app]. rewrite Hmap.
  repeat split; try lia; try assumption.
  rewrite <- Hlen, <- Hmap, length_map. reflexivity.
Qed.

End Selection.

(* ================================================================== *)
(** * The claims *)

(** Two of the four supplier keys. *)
Lemma valid_norref : valid_key (py "norref").
Proof. left. reflexivity. Qed.
Lemma valid_carrousel : valid_key (py "carrousel").
Proof. do 3 right. left. reflexivity. Qed.

(** ** C1 *)

(** C1.  For every line-item list whose subtotal [draw_line_items]
    computes, an invoice generated for a supplier profile from that list
    has tax A equal to the taxable base (subtotal + freight + fuel) times
    0.05, tax B equal to the same base times 0.09975, and returns the
    grand total base + tax A + tax B; the totals column of the saved
    page lists subtotal, freight, fuel, tax A, tax B and total in that
    order.  All operations are those of binary64 floats. *)
Theorem C1_taxes_on_one_base {G} {R : Random G} k products inv po out items
    (w : world (G := G)) c y wd cs subtotal :
  valid_key k ->
  subtotal_of (draw_line_items c y wd items cs) = Ok subtotal ->
  let freight := F64.round2 (F64.add (dec 25 0) (F64.mul subtotal (dec 2 2))) in
  let fuel := F64.round2 (F64.add (dec 8 0) (F64.mul subtotal (dec 1 2))) in
  let taxable := F64.add (F64.add subtotal freight) fuel in
  let tax_a := F64.mul taxable (dec 5 2) in
  let tax_b := F64.mul taxable (dec 9975 5) in
  let total := F64.add (F64.add taxable tax_a) tax_b in
  exists fname w' page amounts,
    generate_invoice k products inv po out (Some items) w = Ok (fname, total, w')
    /\ saved_page w' = Some (fname, page)
    /\ right_strings_at 555 page
       = py "Montant" :: amounts
         ++ [F64.money subtotal; F64.money freight; F64.money fuel;
             F64.money tax_a; F64.money tax_b; F64.money total].
Proof.
  intros Hk Hsub. rewrite subtotal_of_draw_line_items in Hsub.
  pose proof (generate_invoice_explicit_run k products inv po out items w Hk)
    as Hrun.
  cbv zeta in Hrun. rewrite Hsub in Hrun.
  destruct Hrun as (page & amounts & Hgen & _ & Hcol & _).
  cbv zeta. do 2 eexists. exists page, amounts.
  split; [exact Hgen|]. split; [reflexivity|exact Hcol].
Qed.

(** The theorem at the seafood invoice of [main]. *)
Lemma C1_witness :
  valid_key (py "norref")
  /\ subtotal_of (draw_line_items canvas0 552 612 seafood_items palette0)
     = Ok (S754_finite false 8802470189649100 (-42))
  /\ exists fname w' page amounts,
       generate_invoice (G := tape) (py "norref") SEAFOOD_PRODUCTS (py "NRF-78234")
         (py "PO-2025-1247") output_dir (Some seafood_items) world0
       = Ok (fname, S754_finite false 5295555593244645 (-41), w')
       /\ saved_page w' = Some (fname, page)
       /\ right_strings_at 555 page
          = py "Montant" :: amounts
            ++ map py ["$2,001.45"; "$65.03"; "$28.01"; "$104.72"; "$208.93";
                       "$2,408.14"]%string.
Proof.
  split; [exact valid_norref|].
  split; [vm_compute; reflexivity|].
  exact (C1_taxes_on_one_base (py "norref") SEAFOOD_PRODUCTS (py "NRF-78234")
           (py "PO-2025-1247") output_dir seafood_items world0
           canvas0 552 612 palette0 (S754_finite false 8802470189649100 (-42))
           valid_norref ltac:(vm_compute; reflexivity)).
Defined.

(** ** C2 *)

(** C2.  [generate_invoice] takes no freight or fuel argument.  For every
    line-item list with subtotal S, the freight it uses is
    [round(25 + S * 0.02, 2)] and the fuel surcharge is
    [round(8 + S * 0.01, 2)]: these are the amounts written beside the
    labels of freight and fuel in the totals block of the saved page,
    and the amounts that enter the taxable base, the two taxes and the
    grand total returned. *)
Theorem C2_freight_and_fuel_formulas {G} {R : Random G} k products inv po out
    items (w : world (G := G)) c y wd cs subtotal :
  valid_key k ->
  subtotal_of (draw_line_items c y wd items cs) = Ok subtotal ->
  let freight := F64.round2 (F64.add (dec 25 0) (F64.mul subtotal (dec 2 2))) in
  let fuel := F64.round2 (F64.add (dec 8 0) (F64.mul subtotal (dec 1 2))) in
  let taxable := F64.add (F64.add subtotal freight) fuel in
  let tax_a := F64.mul taxable (dec 5 2) in
  let tax_b := F64.mul taxable (dec 9975 5) in
  let total := F64.add (F64.add taxable tax_a) tax_b in
  exists fname w' page,
    generate_invoice k products inv po out (Some items) w = Ok (fname, total, w')
    /\ saved_page w' = Some (fname, page)
    /\ labelled_amounts page
       = [ (py "Sous-total / Subtotal:", F64.money subtotal);
           (py "Transport / Freight:", F64.money freight);
           (py "Surcharge carburant / Fuel:", F64.money fuel);
           (py "TPS/GST (5%):", F64.money tax_a);
           (py "TVQ/QST (9.975%):", F64.money tax_b);
           (py "TOTAL:", F64.money total) ].
Proof.
  intros Hk Hsub. rewrite subtotal_of_draw_line_items in Hsub.
  pose proof (generate_invoice_totals_block k products inv po out items w Hk)
    as Hrun.
  cbv zeta in Hrun. rewrite Hsub in Hrun.
  destruct Hrun as (page & Hgen & Hlab & _).
  cbv zeta. do 2 eexists. exists page.
  split; [exact Hgen|]. split; [reflexivity|exact Hlab].
Qed.

(** The theorem at the seafood invoice of [main]: freight 65.03 and fuel
    28.01 for the subtotal 2001.45. *)
Lemma C2_witness :
  valid_key (py "norref")
  /\ subtotal_of (draw_line_items canvas0 552 612 seafood_items palette0)
     = Ok (S754_finite false 8802470189649100 (-42))
  /\ F64.round2 (F64.add (dec 25 0)
                   (F64.mul (S754_finite false 8802470189649100 (-42)) (dec 2 2)))
     = dec 6503 2
  /\ F64.round2 (F64.add (dec 8 0)
                   (F64.mul (S754_finite false 8802470189649100 (-42)) (dec 1 2)))
     = dec 2801 2
  /\ exists fname w' page,
       generate_invoice (G := tape) (py "norref") SEAFOOD_PRODUCTS
         (py "NRF-78234") (py "PO-2025-1247") output_dir
         (Some seafood_items) world0
       = Ok (fname, S754_finite false 5295555593244645 (-41), w')
       /\ saved_page w' = Some (fname, page)
       /\ labelled_amounts page
          = [ (py "Sous-total / Subtotal:", py "$2,001.45");
              (py "Transport / Freight:", py "$65.03");
              (py "Surcharge carburant / Fuel:", py "$28.01");
              (py "TPS/GST (5%):", py "$104.72");
              (py "TVQ/QST (9.975%):", py "$208.93");
              (py "TOTAL:", py "$2,408.14") ].
Proof.
  split; [exact valid_norref|].
  split; [vm_compute; reflexivity|].
  split; [vm_compute; reflexivity|].
  split; [vm_compute; reflexivity|].
  exact (C2_freight_and_fuel_formulas (py "norref") SEAFOOD_PRODUCTS
           (py "NRF-78234") (py "PO-2025-1247") output_dir seafood_items world0
           canvas0 552 612 palette0 (S754_finite false 8802470189649100 (-42))
           valid_norref ltac:(vm_compute; reflexivity)).
Defined.

(** ** C3 *)

(** C3, counterexample.  The items 1 x 0.10, 1 x 0.20, 1 x 0.30 give the
    subtotal 0.6000000000000001 in listed order and 0.6 in reverse
    order: the subtotal is not invariant under permutation. *)
Lemma C3_subtotal_depends_on_order :
  Permutation dimes (rev dimes)
  /\ subtotal_of (draw_line_items canvas0 552 612 dimes palette0)
     = Ok (S754_finite false 5404319552844596 (-53))
  /\ subtotal_of (draw_line_items canvas0 552 612 (rev dimes) palette0)
     = Ok (S754_finite false 5404319552844595 (-53))
  /\ ~ (forall items items' : list item,
          Permutation items items' ->
          subtotal_of (draw_line_items canvas0 552 612 items palette0)
          = subtotal_of (draw_line_items canvas0 552 612 items' palette0)).
Proof.
  assert (Hp : Permutation dimes (rev dimes)) by apply Permutation_rev.
  split; [exact Hp|].
  split; [vm_compute; reflexivity|].
  split; [vm_compute; reflexivity|].
  intros H. specialize (H dimes (rev dimes) Hp).
  vm_compute in H. discriminate H.
Qed.

(** C3, amended.  The subtotal computed by [draw_line_items] is the sum
    of quantity times unit price accumulated in listed order, in
    binary64 arithmetic from 0; exchanging the first two items leaves it
    unchanged. *)
Theorem C3_subtotal_in_listed_order c y w cs items a b rest :
  subtotal_of (draw_line_items c y w items cs)
    = sum_extended items (S754_zero false)
  /\ subtotal_of (draw_line_items c y w (a :: b :: rest) cs)
     = subtotal_of (draw_line_items c y w (b :: a :: rest) cs).
Proof.
  rewrite !subtotal_of_draw_line_items. split; [reflexivity|].
  apply sum_extended_swap.
Qed.

(** ** C4 *)

(** C4, counterexample.  The seafood invoice of [main] shows neither
    $1,855.75 nor $62.12 nor $26.56 in its amount column, and its
    subtotal is not the float 1855.75. *)
Lemma C4_seafood_subtotal_is_not_1855_75 :
  exists fname total w' page,
    main_seafood world0 = Ok (fname, total, w')
    /\ saved_page w' = Some (fname, page)
    /\ ~ In (py "$1,855.75") (right_strings_at 555 page)
    /\ ~ In (py "$62.12") (right_strings_at 555 page)
    /\ ~ In (py "$26.56") (right_strings_at 555 page)
    /\ subtotal_of (draw_line_items canvas0 552 612 seafood_items palette0)
       <> Ok (dec 185575 2).
Proof.
  do 4 eexists. split; [vm_compute; reflexivity|].
  split; [reflexivity|].
  repeat split; vm_compute; intuition discriminate.
Qed.

(** C4, amended.  For the ten seafood line items of [main] the subtotal
    is 2001.4499999999998 (rendered $2,001.45), freight is 65.03, fuel
    is 28.01, the taxable base is 2094.4900000000002, the taxes render
    as $104.72 and $208.93, and the grand total returned is
    2408.1398775000002, rendered $2,408.14. *)
Theorem C4_seafood_scenario {G} {R : Random G} (w : world (G := G)) c y wd cs :
  let fname := py "/home/claude/invoices/NORREF_INV_NRF-78234.pdf" in
  let subtotal := S754_finite false 8802470189649100 (-42) in
  let freight := F64.round2 (F64.add (dec 25 0) (F64.mul subtotal (dec 2 2))) in
  let fuel := F64.round2 (F64.add (dec 8 0) (F64.mul subtotal (dec 1 2))) in
  subtotal_of (draw_line_items c y wd seafood_items cs) = Ok subtotal
  /\ freight = dec 6503 2
  /\ fuel = dec 2801 2
  /\ F64.add (F64.add subtotal freight) fuel
     = S754_finite false 4605832218521109 (-41)
  /\ exists page,
       main_seafood w
       = Ok (fname, S754_finite false 5295555593244645 (-41),
             World (rng w) (now w) ((fname, page) :: files w))
       /\ right_strings_at 555 page
          = map py ["Montant"; "$44.55"; "$180.00"; "$358.00"; "$234.75";
                    "$347.40"; "$169.00"; "$250.00"; "$93.75"; "$154.00";
                    "$170.00"; "$2,001.45"; "$65.03"; "$28.01"; "$104.72";
                    "$208.93"; "$2,408.14"]%string.
Proof.
  cbv zeta. split.
  { rewrite subtotal_of_draw_line_items. vm_compute. reflexivity. }
  split; [vm_compute; reflexivity|].
  split; [vm_compute; reflexivity|].
  split; [vm_compute; reflexivity|].
  destruct w as [g t fs]. eexists. split; vm_compute; reflexivity.
Qed.

(** ** C5 *)

(** C5, counterexample.  No argument of [generate_invoice] carries a
    freight or fuel amount.  For the single item 3 x 1.10, whatever the
    supplier key, the catalog, the two numbers, the directory and the
    world, an invoice that is generated shows the freight $25.07 and the
    fuel surcharge $8.03 of the formulas; the seafood supplier's is
    generated.  [draw_totals] alone takes such amounts: passed 40.00 and
    15.00 with the same subtotal, it shows them. *)
Lemma C5_generate_invoice_takes_no_override :
  (forall (G : Type) (R : Random G) k products inv po out (w : world (G := G))
          fname total w' page,
     generate_invoice k products inv po out (Some [three_at_110]) w
       = Ok (fname, total, w') ->
     saved_page w' = Some (fname, page) ->
     labelled_amounts page
     = [ (py "Sous-total / Subtotal:", py "$3.30");
         (py "Transport / Freight:", py "$25.07");
         (py "Surcharge carburant / Fuel:", py "$8.03");
         (py "TPS/GST (5%):", py "$1.82");
         (py "TVQ/QST (9.975%):", py "$3.63");
         (py "TOTAL:", py "$41.85") ])
  /\ (exists fname total w',
        generate_invoice (G := tape) (py "norref") SEAFOOD_PRODUCTS (py "NRF-1")
          (py "PO-1") output_dir (Some [three_at_110]) world0
        = Ok (fname, total, w'))
  /\ (exists y' total ops,
        draw_totals canvas0 300 612 (S754_finite false 7430939385161319 (-51))
          (py "norref") (Some (dec 4000 2)) (Some (dec 1500 2))
        = Ok (y', total, emit canvas0 ops)
        /\ labelled_amounts ops
           = [ (py "Sous-total / Subtotal:", py "$3.30");
               (py "Transport / Freight:", py "$40.00");
               (py "Surcharge carburant / Fuel:", py "$15.00");
               (py "TPS/GST (5%):", py "$2.92");
               (py "TVQ/QST (9.975%):", py "$5.82");
               (py "TOTAL:", py "$67.03") ]).
Proof.
  split; [|split].
  - intros G R k products inv po out w fname total w' page Hgen Hsaved.
    pose proof (generate_invoice_Ok_valid _ _ _ _ _ _ _ _ Hgen) as Hk.
    pose proof (generate_invoice_totals_block k products inv po out
                  [three_at_110] w Hk) as Hrun.
    cbv zeta in Hrun.
    assert (Hs : sum_extended [three_at_110] (S754_zero false)
                 = Ok (S754_finite false 7430939385161319 (-51)))
      by (vm_compute; reflexivity).
    rewrite Hs in Hrun. destruct Hrun as (page' & Hgen' & Hlab & _).
    rewrite Hgen in Hgen'.
    apply (f_equal (fun r => match r with
                             | Ok (_, _, w) => saved_page w
                             | Raise _ => None
                             end)) in Hgen'.
    cbn [saved_page files] in Hgen'.
    rewrite Hsaved in Hgen'. injection Hgen' as _ <-.
    rewrite Hlab. vm_compute. reflexivity.
  - do 3 eexists. vm_compute. reflexivity.
  - do 3 eexists. split; vm_compute; reflexivity.
Qed.

(** C5, amended.  Freight and fuel amounts are parameters of
    [draw_totals] alone, each optional with the defaults 35.00 and
    12.50.  An amount passed, alone or with the other, is used
    unmodified: it is written as given beside its label, and the taxable
    base is subtotal + freight + fuel with exactly these amounts; no
    formula in the subtotal is applied.  [generate_invoice] has no such
    parameter: whatever its arguments, the amounts of its totals block
    are those of the formulas [round(25 + S * 0.02, 2)] and
    [round(8 + S * 0.01, 2)]. *)
Theorem C5_override_used_unmodified {G} {R : Random G} c y wd subtotal k
    (freight fuel : option float) products inv po out items
    (w : world (G := G)) :
  valid_key k ->
  let freight_used := match freight with Some v => v | None => dec 3500 2 end in
  let fuel_used := match fuel with Some v => v | None => dec 1250 2 end in
  let taxable := F64.add (F64.add subtotal freight_used) fuel_used in
  let gst := F64.mul taxable (dec 5 2) in
  let qst := F64.mul taxable (dec 9975 5) in
  let total := F64.add (F64.add taxable gst) qst in
  (exists y' ops,
     draw_totals c y wd subtotal k freight fuel = Ok (y', total, emit c ops)
     /\ labelled_amounts ops
        = [ (py "Sous-total / Subtotal:", F64.money subtotal);
            (py "Transport / Freight:", F64.money freight_used);
            (py "Surcharge carburant / Fuel:", F64.money fuel_used);
            (py "TPS/GST (5%):", F64.money gst);
            (py "TVQ/QST (9.975%):", F64.money qst);
            (py "TOTAL:", F64.money total) ]
     /\ right_strings_at 555 ops
        = [F64.money subtotal; F64.money freight_used; F64.money fuel_used;
           F64.money gst; F64.money qst; F64.money total])
  /\ match sum_extended items (S754_zero false) with
     | Ok s =>
       let fr := F64.round2 (F64.add (dec 25 0) (F64.mul s (dec 2 2))) in
       let fu := F64.round2 (F64.add (dec 8 0) (F64.mul s (dec 1 2))) in
       let base := F64.add (F64.add s fr) fu in
       let sum := F64.add (F64.add base (F64.mul base (dec 5 2)))
                    (F64.mul base (dec 9975 5)) in
       exists fname w' page,
         generate_invoice k products inv po out (Some items) w
           = Ok (fname, sum, w')
         /\ saved_page w' = Some (fname, page)
         /\ labelled_amounts page
            = [ (py "Sous-total / Subtotal:", F64.money s);
                (py "Transport / Freight:", F64.money fr);
                (py "Surcharge carburant / Fuel:", F64.money fu);
                (py "TPS/GST (5%):", F64.money (F64.mul base (dec 5 2)));
                (py "TVQ/QST (9.975%):", F64.money (F64.mul base (dec 9975 5)));
                (py "TOTAL:", F64.money sum) ]
     | Raise e =>
       generate_invoice k products inv po out (Some items) w = Raise e
     end.
Proof.
  intros Hk. cbv zeta. split.
  - destruct (draw_totals_block c y wd subtotal k freight fuel Hk)
      as (ops & H1 & H2 & _ & H3).
    eexists. exists ops. split; [exact H1|]. split; [|exact H2].
    specialize (H3 []). rewrite !app_nil_r in H3. exact H3.
  - pose proof (generate_invoice_totals_block k products inv po out items w Hk)
      as Hrun.
    cbv zeta in Hrun.
    destruct (sum_extended items (S754_zero false)) as [s|e]; [|exact Hrun].
    destruct Hrun as (page & Hgen & Hlab & _).
    do 2 eexists. exists page.
    split; [exact Hgen|]. split; [reflexivity|exact Hlab].
Qed.

(** The theorem at a freight of 40.00 passed alone, the fuel surcharge
    being left to its default of 12.50, with the subtotal 100.00; and at
    the invoice of the single item 3 x 1.10. *)
Lemma C5_witness :
  valid_key (py "carrousel")
  /\ (exists y' ops,
        draw_totals canvas0 300 612 (dec 10000 2) (py "carrousel")
          (Some (dec 4000 2)) None
        = Ok (y', F64.add (F64.add (dec 15250 2)
                             (F64.mul (dec 15250 2) (dec 5 2)))
                    (F64.mul (dec 15250 2) (dec 9975 5)),
              emit canvas0 ops)
        /\ labelled_amounts ops
           = [ (py "Sous-total / Subtotal:", py "$100.00");
               (py "Transport / Freight:", py "$40.00");
               (py "Surcharge carburant / Fuel:", py "$12.50");
               (py "TPS/GST (5%):", py "$7.62");
               (py "TVQ/QST (9.975%):", py "$15.21");
               (py "TOTAL:", py "$175.34") ]
        /\ right_strings_at 555 ops
           = map py ["$100.00"; "$40.00"; "$12.50"; "$7.62"; "$15.21";
                     "$175.34"]%string)
  /\ exists fname w' page,
       generate_invoice (G := tape) (py "carrousel") PACKAGING_PRODUCTS
         (py "CRS-1") (py "PO-1") output_dir (Some [three_at_110]) world0
       = Ok (fname, S754_finite false 5889990551409996 (-47), w')
       /\ saved_page w' = Some (fname, page)
       /\ labelled_amounts page
          = [ (py "Sous-total / Subtotal:", py "$3.30");
              (py "Transport / Freight:", py "$25.07");
              (py "Surcharge carburant / Fuel:", py "$8.03");
              (py "TPS/GST (5%):", py "$1.82");
              (py "TVQ/QST (9.975%):", py "$3.63");
              (py "TOTAL:", py "$41.85") ].
Proof.
  split; [exact valid_carrousel|].
  exact (C5_override_used_unmodified (G := tape) canvas0 300 612 (dec 10000 2)
           (py "carrousel") (Some (dec 4000 2)) None PACKAGING_PRODUCTS
           (py "CRS-1") (py "PO-1") output_dir [three_at_110] world0
           valid_carrousel).
Defined.

(** ** C6 *)

(** C6, counterexample.  From a catalog of three products the random
    selection yields three items, fewer than 8. *)
Lemma C6_small_catalog_yields_three :
  exists items g',
    select_items small_catalog tape0 = Ok (items, g')
    /\ List.length items = 3%nat
    /\ ~ (forall (products : list product) (g : tape) its g1,
            select_items products g = Ok (its, g1) ->
            (8 <= List.length its <= 15)%nat).
Proof.
  do 2 eexists. split; [vm_compute; reflexivity|].
  split; [reflexivity|].
  intros H.
  specialize (H small_catalog tape0 _ _ ltac:(vm_compute; reflexivity)).
  cbn [List.length] in H. lia.
Qed.

(** C6, amended.  For every catalog and every outcome of the draws, the
    random selection yields min(n, catalog size) items for a drawn count
    n between 8 and 15, taken at pairwise distinct positions of the
    catalog, each with a quantity between 1 and 5; so between 8 and 15
    items when the catalog has at least 8 products, and distinct
    products when the catalog has no repeated entry. *)
Theorem C6_random_selection {G} {R : Random G} (L : RandomLaws G)
    (products_list : list product) (g : G) :
  exists num_items items g',
    select_items products_list g = Ok (items, g')
    /\ 8 <= num_items <= 15
    /\ Z.of_nat (List.length items)
       = Z.min num_items (Z.of_nat (List.length products_list))
    /\ drawn_from products_list (map product_of items)
    /\ Forall (fun it => 1 <= quantity it <= 5) items
    /\ ((8 <= List.length products_list)%nat ->
        (8 <= List.length items <= 15)%nat)
    /\ (NoDup products_list -> NoDup (map product_of items)).
Proof.
  destruct (select_items_spec products_list g)
    as (n & items & g' & Hsel & Hn & Hlen & Hd & Hq).
  exists n, items, g'. repeat split; try assumption; try lia.
  intros Hnd. exact (drawn_from_NoDup _ _ Hd Hnd).
Qed.

(** The theorem at the tape generator and the seafood catalog. *)
Lemma C6_witness :
  RandomLaws tape
  /\ exists num_items items g',
       select_items SEAFOOD_PRODUCTS tape0 = Ok (items, g')
       /\ 8 <= num_items <= 15
       /\ Z.of_nat (List.length items)
          = Z.min num_items (Z.of_nat (List.length SEAFOOD_PRODUCTS))
       /\ drawn_from SEAFOOD_PRODUCTS (map product_of items)
       /\ Forall (fun it => 1 <= quantity it <= 5) items
       /\ ((8 <= List.length SEAFOOD_PRODUCTS)%nat ->
           (8 <= List.length items <= 15)%nat)
       /\ (NoDup SEAFOOD_PRODUCTS -> NoDup (map product_of items)).
Proof.
  split; [exact tape_laws|].
  exact (C6_random_selection tape_laws SEAFOOD_PRODUCTS tape0).
Defined.

(** ** C7 *)

(** C7, counterexample.  For 3 x 1.10 the extended amount computed is
    3.3000000000000003, while that product rounded to 2 decimals is
    3.3; the unrounded value is what the subtotal receives. *)
Lemma C7_extended_is_not_rounded :
  int_mul_float 3 (dec 110 2) = Ok (S754_finite false 7430939385161319 (-51))
  /\ F64.round2 (S754_finite false 7430939385161319 (-51))
     = S754_finite false 7430939385161318 (-51)
  /\ dec 330 2 = S754_finite false 7430939385161318 (-51)
  /\ subtotal_of (draw_line_items canvas0 552 612 [three_at_110] palette0)
     = Ok (S754_finite false 7430939385161319 (-51))
  /\ ~ (forall (qty cents : Z) (extended : float),
          0 < qty -> 0 <= cents ->
          int_mul_float qty (dec cents 2) = Ok extended ->
          extended = F64.round2 extended).
Proof.
  repeat split; try (vm_compute; reflexivity).
  intros H.
  specialize (H 3 110 _ ltac:(lia) ltac:(lia) ltac:(vm_compute; reflexivity)).
  vm_compute in H. discriminate H.
Qed.

(** When every quantity converts to a float the table is drawn. *)
Lemma draw_line_items_total c y w items cs :
  Forall (fun it => F64.of_int (quantity it) <> None) items ->
  exists y' subtotal ops amounts,
    draw_line_items c y w items cs = Ok (y', subtotal, emit c ops)
    /\ sum_extended items (S754_zero false) = Ok subtotal
    /\ strings_at 95 ops
       = py "Description"
         :: map (fun it =>
                   if 32 <? Str.len (description it)
                   then firstn 30 (description it) ++ py ".."
                   else description it) items
    /\ right_strings_at 555 ops = py "Montant" :: amounts
    /\ Forall2 (fun it text =>
                  exists extended,
                    int_mul_float (quantity it) (unit_price it) = Ok extended
                    /\ text = F64.money extended)
         items amounts.
Proof.
  intros Hq.
  destruct (sum_extended_total items (S754_zero false) Hq) as [s Hs].
  pose proof (draw_line_items_spec c y w items cs) as Hl.
  destruct (draw_line_items c y w items cs) as [[[y' s'] c']|e];
    [|congruence].
  destruct Hl as (Hs' & _ & ops & amounts & -> & Ha & Hb & Hamt).
  exists y', s', ops, amounts. repeat split; assumption.
Qed.

(** C7, amended.  For every line item whose quantity converts to a
    float, the extended amount computed is the binary64 product of
    quantity and unit price, not rounded: the subtotal accumulates that
    product, and only its rendering in the amount column is rounded to
    two decimals. *)
Theorem C7_extended_unrounded_rendered_2f c y w items cs :
  Forall (fun it => F64.of_int (quantity it) <> None) items ->
  exists y' subtotal ops amounts,
    draw_line_items c y w items cs = Ok (y', subtotal, emit c ops)
    /\ right_strings_at 555 ops = py "Montant" :: amounts
    /\ Forall2 (fun it text =>
                  exists extended,
                    int_mul_float (quantity it) (unit_price it) = Ok extended
                    /\ text = F64.money extended)
         items amounts
    /\ sum_extended items (S754_zero false) = Ok subtotal.
Proof.
  intros Hq.
  destruct (draw_line_items_total c y w items cs Hq)
    as (y' & s & ops & amounts & H1 & H2 & _ & H4 & H5).
  exists y', s, ops, amounts. repeat split; assumption.
Qed.

(** The theorem at the single item 3 x 1.10. *)
Lemma C7_witness :
  Forall (fun it => F64.of_int (quantity it) <> None) [three_at_110]
  /\ exists y' subtotal ops amounts,
       draw_line_items canvas0 552 612 [three_at_110] palette0
       = Ok (y', subtotal, emit canvas0 ops)
       /\ right_strings_at 555 ops = py "Montant" :: amounts
       /\ Forall2 (fun it text =>
                     exists extended,
                       int_mul_float (quantity it) (unit_price it) = Ok extended
                       /\ text = F64.money extended)
            [three_at_110] amounts
       /\ sum_extended [three_at_110] (S754_zero false) = Ok subtotal.
Proof.
  assert (H : Forall (fun it => F64.of_int (quantity it) <> None) [three_at_110]).
  { constructor; [vm_compute; discriminate|constructor]. }
  split; [exact H|].
  exact (C7_extended_unrounded_rendered_2f canvas0 552 612 [three_at_110]
           palette0 H).
Defined.

(** ** C8 *)

(** C8.  The description column of the line-item table shows, for
    every item in order, the first 30 characters of its description
    followed by two dots when the description has more than 32
    characters, and the description unchanged otherwise. *)
Theorem C8_description_truncation c y w items cs :
  Forall (fun it => F64.of_int (quantity it) <> None) items ->
  exists y' subtotal ops,
    draw_line_items c y w items cs = Ok (y', subtotal, emit c ops)
    /\ strings_at 95 ops
       = py "Description"
         :: map (fun it =>
                   if 32 <? Str.len (description it)
                   then firstn 30 (description it) ++ py ".."
                   else description it) items.
Proof.
  intros Hq.
  destruct (draw_line_items_total c y w items cs Hq)
    as (y' & s & ops & amounts & H1 & _ & H3 & _).
  exists y', s, ops. split; assumption.
Qed.

(** The theorem at a description of 39 characters, one of 13, and one
    of 32 characters that takes 34 bytes in UTF-8. *)
Lemma C8_witness :
  Forall (fun it => F64.of_int (quantity it) <> None)
    [long_item; three_at_110; accented_item]
  /\ exists y' subtotal ops,
       draw_line_items canvas0 552 612 [long_item; three_at_110; accented_item]
         palette0
       = Ok (y', subtotal, emit canvas0 ops)
       /\ strings_at 95 ops
          = map py ["Description"; "FILET DE SAUMON ATLANTIQUE FUM..";
                    "THREE AT 1.10"; "PÉTONCLES GÉANTS U10 DRY PACK QC"]%string.
Proof.
  assert (H : Forall (fun it => F64.of_int (quantity it) <> None)
                [long_item; three_at_110; accented_item]).
  { repeat constructor; vm_compute; discriminate. }
  split; [exact H|].
  exact (C8_description_truncation canvas0 552 612
           [long_item; three_at_110; accented_item] palette0 H).
Defined.

(** ** C9 *)

(** C9, counterexample.  Two runs of the seafood invoice with the same
    inputs, the same generator state and the same files, on two
    different days, save different pages: the date drawn in the header
    comes from the clock. *)
Lemma C9_document_depends_on_clock :
  rng world0 = rng world1 /\ files world0 = files world1
  /\ exists fname total w0' w1' page0 page1,
       main_seafood world0 = Ok (fname, total, w0')
       /\ main_seafood world1 = Ok (fname, total, w1')
       /\ saved_page w0' = Some (fname, page0)
       /\ saved_page w1' = Some (fname, page1)
       /\ right_strings_at 562 page0
          = map py ["NRF-78234"; "03/12/2025"; "MTL-458923"; "PO-2025-1247"]%string
       /\ right_strings_at 562 page1
          = map py ["NRF-78234"; "04/12/2025"; "MTL-458923"; "PO-2025-1247"]%string
       /\ page0 <> page1.
Proof.
  split; [reflexivity|]. split; [reflexivity|].
  do 6 eexists.
  split; [vm_compute; reflexivity|].
  split; [vm_compute; reflexivity|].
  split; [reflexivity|]. split; [reflexivity|].
  split; [vm_compute; reflexivity|].
  split; [vm_compute; reflexivity|].
  intros H. apply (f_equal (right_strings_at 562)) in H.
  vm_compute in H. discriminate H.
Qed.

(** C9, amended.  Two invocations of [generate_invoice] with the same
    supplier key, explicit line items, invoice number, purchase-order
    number and output directory return the same file name and the same
    grand total, or raise the same exception, whatever the two catalogs,
    generator states, clocks and files already written.  Each saves a
    page whose header box shows the date of its own clock as dd/mm/yyyy,
    and the two pages are the same drawing operations exactly when these
    two dates read the same, hence whenever the two runs fall on the
    same calendar date. *)
Theorem C9_determined_by_inputs_and_date {G} {R : Random G}
    k products1 products2 inv po out items (w1 w2 : world (G := G)) :
  match generate_invoice k products1 inv po out (Some items) w1,
        generate_invoice k products2 inv po out (Some items) w2 with
  | Ok (f1, t1, w1'), Ok (f2, t2, w2') =>
    f1 = f2 /\ t1 = t2
    /\ exists page1 page2,
         saved_page w1' = Some (f1, page1)
         /\ saved_page w2' = Some (f2, page2)
         /\ right_strings_at 562 page1
            = [inv; strftime_dmY (now w1); py "MTL-458923"; po]
         /\ right_strings_at 562 page2
            = [inv; strftime_dmY (now w2); py "MTL-458923"; po]
         /\ (page1 = page2 <-> strftime_dmY (now w1) = strftime_dmY (now w2))
         /\ (day (now w1) = day (now w2) ->
             month (now w1) = month (now w2) ->
             year (now w1) = year (now w2) ->
             page1 = page2)
  | Raise e1, Raise e2 => e1 = e2
  | _, _ => False
  end.
Proof.
  destruct (valid_key_dec k) as [Hk|Hk].
  2: { unfold generate_invoice. cbn [letter].
       rewrite (dict_get_missing SUPPLIERS k Hk). reflexivity. }
  pose proof (generate_invoice_totals_block k products1 inv po out items w1 Hk)
    as H1.
  pose proof (generate_invoice_totals_block k products2 inv po out items w2 Hk)
    as H2.
  pose proof (generate_invoice_same_date k products1 products2 inv po out
                items w1 w2) as Hsame.
  cbv zeta in H1, H2.
  destruct (sum_extended items (S754_zero false)) as [s|e].
  - destruct H1 as (page1 & G1 & _ & D1). destruct H2 as (page2 & G2 & _ & D2).
    rewrite G1, G2 in Hsame. rewrite G1, G2. cbn [files] in Hsame.
    assert (Hiff : page1 = page2
                   <-> strftime_dmY (now w1) = strftime_dmY (now w2)).
    { split.
      - intros E. rewrite E, D2 in D1. injection D1 as D1. now symmetry.
      - intros E. destruct (Hsame E) as (file & F1 & F2).
        injection F1 as F1. injection F2 as F2. congruence. }
    split; [reflexivity|]. split; [reflexivity|].
    exists page1, page2.
    split; [reflexivity|]. split; [reflexivity|].
    split; [exact D1|]. split; [exact D2|]. split; [exact Hiff|].
    intros Hd Hm Hy. apply Hiff. unfold strftime_dmY. now rewrite Hd, Hm, Hy.
  - rewrite H1, H2. reflexivity.
Qed.

(** The theorem at the seafood invoice run on two days, with the seafood
    and the meat catalog. *)
Lemma C9_witness :
  match generate_invoice (G := tape) (py "norref") SEAFOOD_PRODUCTS
          (py "NRF-78234") (py "PO-2025-1247") output_dir (Some seafood_items)
          world0,
        generate_invoice (G := tape) (py "norref") MEAT_PRODUCTS
          (py "NRF-78234") (py "PO-2025-1247") output_dir (Some seafood_items)
          world1 with
  | Ok (f1, t1, w1'), Ok (f2, t2, w2') =>
    f1 = f2 /\ t1 = t2
    /\ exists page1 page2,
         saved_page w1' = Some (f1, page1)
         /\ saved_page w2' = Some (f2, page2)
         /\ right_strings_at 562 page1
            = [py "NRF-78234"; strftime_dmY (now world0); py "MTL-458923";
               py "PO-2025-1247"]
         /\ right_strings_at 562 page2
            = [py "NRF-78234"; strftime_dmY (now world1); py "MTL-458923";
               py "PO-2025-1247"]
         /\ (page1 = page2
             <-> strftime_dmY (now world0) = strftime_dmY (now world1))
         /\ (day (now world0) = day (now world1) ->
             month (now world0) = month (now world1) ->
             year (now world0) = year (now world1) ->
             page1 = page2)
  | Raise e1, Raise e2 => e1 = e2
  | _, _ => False
  end.
Proof.
  exact (C9_determined_by_inputs_and_date (py "norref") SEAFOOD_PRODUCTS
           MEAT_PRODUCTS (py "NRF-78234") (py "PO-2025-1247") output_dir
           seafood_items world0 world1).
Defined.

(** ** C10 *)

(** The total returned for explicit items, as a function of the items. *)
Lemma total_of_generate_invoice_explicit {G} {R : Random G}
    k products inv po out items (w : world (G := G)) :
  valid_key k ->
  total_of (generate_invoice k products inv po out (Some items) w)
  = (subtotal <- sum_extended items (S754_zero false) ;;
     let freight := F64.round2 (F64.add (dec 25 0) (F64.mul subtotal (dec 2 2))) in
     let fuel := F64.round2 (F64.add (dec 8 0) (F64.mul subtotal (dec 1 2))) in
     let taxable := F64.add (F64.add subtotal freight) fuel in
     Ok (F64.add (F64.add taxable (F64.mul taxable (dec 5 2)))
           (F64.mul taxable (dec 9975 5)))).
Proof.
  intros Hk.
  pose proof (generate_invoice_explicit_run k products inv po out items w Hk)
    as Hrun.
  cbv zeta in Hrun.
  destruct (sum_extended items (S754_zero false)) as [s|e]; cbn [bind].
  - destruct Hrun as (page & amounts & -> & _). reflexivity.
  - rewrite Hrun. reflexivity.
Qed.

(** C10.  With an explicit line-item list, two runs for any two
    supplier profiles, catalogs, invoice numbers, purchase-order
    numbers, output directories and worlds return the same grand total
    (or raise the same exception). *)
Theorem C10_total_depends_only_on_items {G} {R : Random G}
    k1 k2 products1 products2 inv1 inv2 po1 po2 out1 out2 items
    (w1 w2 : world (G := G)) :
  valid_key k1 -> valid_key k2 ->
  total_of (generate_invoice k1 products1 inv1 po1 out1 (Some items) w1)
  = total_of (generate_invoice k2 products2 inv2 po2 out2 (Some items) w2).
Proof.
  intros H1 H2.
  now rewrite !total_of_generate_invoice_explicit.
Qed.

(** The theorem at the seafood items invoiced by two suppliers on two
    days. *)
Lemma C10_witness :
  valid_key (py "norref") /\ valid_key (py "carrousel")
  /\ total_of (generate_invoice (py "norref") SEAFOOD_PRODUCTS (py "NRF-78234")
                 (py "PO-2025-1247") output_dir (Some seafood_items) world0)
     = total_of (generate_invoice (py "carrousel") PACKAGING_PRODUCTS
                   (py "CRS-12789") (py "PO-2025-1250") (py "/tmp")
                   (Some seafood_items) world1).
Proof.
  split; [exact valid_norref|]. split; [exact valid_carrousel|].
  exact (C10_total_depends_only_on_items (py "norref") (py "carrousel")
           SEAFOOD_PRODUCTS PACKAGING_PRODUCTS (py "NRF-78234") (py "CRS-12789")
           (py "PO-2025-1247") (py "PO-2025-1250") output_dir (py "/tmp")
           seafood_items world0 world1 valid_norref valid_carrousel).
Defined.

(* ================================================================== *)
(** * Further properties *)

(** ** Integers that convert to a float *)

Lemma digits2_pos_lower m : 2 ^ (Zpos (digits2_pos m) - 1) <= Zpos m.
Proof.
  induction m as [m IH|m IH|]; cbn [digits2_pos].
  - rewrite Pos2Z.inj_succ.
    replace (Z.succ (Zpos (digits2_pos m)) - 1)
      with (Z.succ (Zpos (digits2_pos m) - 1)) by lia.
    rewrite Z.pow_succ_r by lia. lia.
  - rewrite Pos2Z.inj_succ.
    replace (Z.succ (Zpos (digits2_pos m)) - 1)
      with (Z.succ (Zpos (digits2_pos m) - 1)) by lia.
    rewrite Z.pow_succ_r by lia. lia.
  - simpl. lia.
Qed.

Lemma digits2_pos_bound m n :
  0 <= n -> Zpos m < 2 ^ n -> Zpos (digits2_pos m) <= n.
Proof.
  intros Hn Hm. pose proof (digits2_pos_lower m) as Hl.
  destruct (Z_le_gt_dec (Zpos (digits2_pos m)) n) as [|Hgt]; [assumption|].
  exfalso.
  assert (2 ^ n <= 2 ^ (Zpos (digits2_pos m) - 1))
    by (apply Z.pow_le_mono_r; lia).
  lia.
Qed.

Lemma digits2_pos_iter_xO m p :
  Zpos (digits2_pos (Pos.iter xO m p)) = Zpos (digits2_pos m) + Zpos p.
Proof.
  revert m. induction p as [|p IH] using Pos.peano_ind; intros m.
  - cbn [Pos.iter digits2_pos]. lia.
  - rewrite Pos.iter_succ. cbn [digits2_pos]. rewrite Pos2Z.inj_succ, IH. lia.
Qed.

(** A mantissa of exactly 53 bits with a small exponent is rounded to
    itself. *)
Lemma binary_round_aux_exact s m e :
  Zpos (digits2_pos m) = 53 -> -1074 <= e <= 971 ->
  binary_round_aux F64.prec F64.emax s (Zpos m) e loc_Exact
  = S754_finite s m e.
Proof.
  intros Hd He. unfold binary_round_aux, shr_fexp, fexp, emin.
  cbn [Zdigits2 shr_record_of_loc]. rewrite Hd.
  unfold F64.prec, F64.emax.
  replace (Z.max (53 + e - 53) (3 - 1024 - 53) - e) with 0 by lia.
  cbn [shr shr_m loc_of_shr_record round_nearest_even Zdigits2
       shr_record_of_loc].
  rewrite Hd.
  replace (Z.max (53 + e - 53) (3 - 1024 - 53) - e) with 0 by lia.
  cbn [shr shr_m].
  destruct (Z.leb_spec e (1024 - 53)); [reflexivity|lia].
Qed.

Lemma of_int_small i :
  Z.abs i < 2 ^ 53 -> exists x, F64.of_int i = Some x.
Proof.
  intros Hi. unfold F64.of_int.
  destruct i as [|m|m]; cbn [binary_normalize]; [eauto| |].
  all: assert (Hm : Zpos m < 2 ^ 53) by (cbn [Z.abs] in Hi; lia).
  all: pose proof (digits2_pos_bound m 53 ltac:(lia) Hm) as Hd.
  all: assert (Hd1 : 1 <= Zpos (digits2_pos m)) by lia.
  all: unfold binary_round, shl_align, fexp, emin, F64.prec, F64.emax.
  all: replace (Z.max (Zpos (digits2_pos m) + 0 - 53) (3 - 1024 - 53) - 0)
         with (Zpos (digits2_pos m) - 53) by lia.
  all: destruct (Zpos (digits2_pos m) - 53) as [|p|p] eqn:Hp; try lia.
  all: try (change (3 - 1024 - 53) with (-1074);
            replace (Z.max (Zpos (digits2_pos m) + 0 - 53) (-1074))
              with 0 by lia).
  all: try (change 53 with F64.prec at 1; change 1024 with F64.emax at 1).
  - change (binary_round_aux 53 1024) with (binary_round_aux F64.prec F64.emax).
    rewrite binary_round_aux_exact by lia. eauto.
  - replace (Z.max (Zpos (digits2_pos m) + 0 - 53) (3 - 1024 - 53))
      with (Zneg p) by lia.
    change (binary_round_aux 53 1024) with (binary_round_aux F64.prec F64.emax).
    rewrite binary_round_aux_exact; [eauto| |lia].
    rewrite digits2_pos_iter_xO. lia.
  - change (binary_round_aux 53 1024) with (binary_round_aux F64.prec F64.emax).
    rewrite binary_round_aux_exact by lia. eauto.
  - replace (Z.max (Zpos (digits2_pos m) + 0 - 53) (3 - 1024 - 53))
      with (Zneg p) by lia.
    change (binary_round_aux 53 1024) with (binary_round_aux F64.prec F64.emax).
    rewrite binary_round_aux_exact; [eauto| |lia].
    rewrite digits2_pos_iter_xO. lia.
Qed.

(** ** Which invoices are generated *)

Lemma sum_extended_cases items : forall acc,
  match sum_extended items acc with
  | Ok _ => Forall (fun it => F64.of_int (quantity it) <> None) items
  | Raise e =>
    e = OverflowError
    /\ Exists (fun it => F64.of_int (quantity it) = None) items
  end.
Proof.
  induction items as [|it items IH]; intros acc; cbn [sum_extended].
  - constructor.
  - unfold int_mul_float.
    destruct (F64.of_int (quantity it)) as [fq|] eqn:Hq; cbn [bind].
    + specialize (IH (F64.add acc (F64.mul fq (unit_price it)))).
      destruct (sum_extended items _) as [s|e].
      * constructor; [congruence|exact IH].
      * destruct IH as [-> IH]. split; [reflexivity|]. now apply Exists_cons_tl.
    + split; [reflexivity|]. now apply Exists_cons_hd.
Qed.

(** X1.  A supplier key that is not one of the four keys of [SUPPLIERS]
    makes [generate_invoice] raise [KeyError] with that key, with explicit
    items or without, whatever the other arguments. *)
Theorem X1_unknown_supplier_key {G} {R : Random G} k products inv po out
    selected (w : world (G := G)) :
  ~ valid_key k ->
  generate_invoice k products inv po out selected w = Raise (KeyError k).
Proof.
  intros Hk. unfold generate_invoice. cbn [letter].
  rewrite (dict_get_missing SUPPLIERS k Hk). reflexivity.
Qed.

(** The theorem at a key that [SUPPLIERS] does not have. *)
Lemma X1_witness :
  ~ valid_key (py "metro")
  /\ generate_invoice (G := tape) (py "metro") SEAFOOD_PRODUCTS (py "NRF-78234")
       (py "PO-2025-1247") output_dir None world0
     = Raise (KeyError (py "metro")).
Proof.
  assert (H : ~ valid_key (py "metro")).
  { vm_compute. intuition discriminate. }
  split; [exact H|].
  exact (X1_unknown_supplier_key (py "metro") SEAFOOD_PRODUCTS (py "NRF-78234")
           (py "PO-2025-1247") output_dir None world0 H).
Defined.

(** X2.  For a supplier key of [SUPPLIERS] and explicit items,
    [generate_invoice] returns exactly when every quantity converts to a
    float; otherwise it raises [OverflowError], and some quantity does not
    convert. *)
Theorem X2_overflow_is_the_only_failure {G} {R : Random G} k products inv po
    out items (w : world (G := G)) :
  valid_key k ->
  match generate_invoice k products inv po out (Some items) w with
  | Ok _ => Forall (fun it => F64.of_int (quantity it) <> None) items
  | Raise e =>
    e = OverflowError
    /\ Exists (fun it => F64.of_int (quantity it) = None) items
  end.
Proof.
  intros Hk.
  pose proof (generate_invoice_explicit_run k products inv po out items w Hk)
    as Hrun.
  pose proof (sum_extended_cases items (S754_zero false)) as Hc.
  cbv zeta in Hrun.
  destruct (sum_extended items (S754_zero false)) as [s|e].
  - destruct Hrun as (page & amounts & -> & _). exact Hc.
  - rewrite Hrun. exact Hc.
Qed.

(** The theorem at an item of quantity 2^1024. *)
Lemma X2_witness :
  valid_key (py "norref")
  /\ generate_invoice (G := tape) (py "norref") SEAFOOD_PRODUCTS (py "NRF-78234")
       (py "PO-2025-1247") output_dir
       (Some [(py "X-7", py "TOO MANY", py "EA", 2 ^ 1024, dec 100 2)]) world0
     = Raise OverflowError.
Proof.
  split; [exact valid_norref|].
  pose proof (X2_overflow_is_the_only_failure (py "norref") SEAFOOD_PRODUCTS
                (py "NRF-78234") (py "PO-2025-1247") output_dir
                [(py "X-7", py "TOO MANY", py "EA", 2 ^ 1024, dec 100 2)]
                world0 valid_norref) as H.
  destruct (generate_invoice _ _ _ _ _ _ _) as [r|e].
  - exfalso. inversion H as [|? ? Hq _]; subst. apply Hq.
    vm_compute. reflexivity.
  - destruct H as [-> _]. reflexivity.
Defined.

(** X3.  Quantities below 2^53 in absolute value always convert: with
    such quantities and a supplier key of [SUPPLIERS], [generate_invoice]
    returns an invoice. *)
Theorem X3_quantities_below_2_53 {G} {R : Random G} k products inv po out items
    (w : world (G := G)) :
  valid_key k ->
  Forall (fun it => Z.abs (quantity it) < 2 ^ 53) items ->
  exists fname total w',
    generate_invoice k products inv po out (Some items) w
    = Ok (fname, total, w').
Proof.
  intros Hk Hq.
  pose proof (generate_invoice_explicit_run k products inv po out items w Hk)
    as Hrun.
  cbv zeta in Hrun.
  destruct (sum_extended_total items (S754_zero false)) as [s Hs].
  { eapply Forall_impl; [|exact Hq]. intros it Hit.
    destruct (of_int_small _ Hit) as [x ->]. discriminate. }
  rewrite Hs in Hrun. destruct Hrun as (page & amounts & -> & _). eauto.
Qed.

(** The theorem at the meat invoice of [main]. *)
Lemma X3_witness :
  valid_key (py "distrobec")
  /\ Forall (fun it => Z.abs (quantity it) < 2 ^ 53) meat_items
  /\ exists fname total w',
       generate_invoice (G := tape) (py "distrobec") MEAT_PRODUCTS
         (py "DST-45612") (py "PO-2025-1248") output_dir (Some meat_items)
         world0
       = Ok (fname, total, w').
Proof.
  assert (Hk : valid_key (py "distrobec")) by (right; left; reflexivity).
  assert (Hq : Forall (fun it => Z.abs (quantity it) < 2 ^ 53) meat_items).
  { repeat constructor; vm_compute; reflexivity. }
  split; [exact Hk|]. split; [exact Hq|].
  exact (X3_quantities_below_2_53 (py "distrobec") MEAT_PRODUCTS
           (py "DST-45612") (py "PO-2025-1248") output_dir meat_items world0
           Hk Hq).
Defined.

(** The name of an invoice file never starts with a slash, so that
    [os.path.join] keeps the directory. *)
Lemma path_join_key k out rest :
  valid_key k ->
  path_join out (Str.upper k ++ rest)
  = match rev out with
    | [] => []
    | 47%N :: _ => out
    | _ => out ++ py "/"
    end ++ Str.upper k ++ rest.
Proof.
  intros [<-|[<-|[<-|[<-|[]]]]];
    match goal with
    | |- context [Str.upper ?key] =>
      set (u := Str.upper key); vm_compute in u; subst u
    end;
    cbn [app]; unfold path_join;
    (destruct (rev out) as [|ch r]; [reflexivity|]);
    repeat match goal with
    | |- context [match ?x with _ => _ end] => is_var x; destruct x
    end;
    rewrite <- ?app_assoc; reflexivity.
Qed.

(** A path holds what was written to it last. *)
Lemma written_at_newest fs path content :
  written_at ((path, content) :: fs) path = Some content.
Proof.
  cbn [written_at]. destruct (Str_eqb_spec path path) as [_|ne];
    [reflexivity|now destruct ne].
Qed.

Lemma written_at_older fs p path content :
  Str.eqb p path = false ->
  written_at ((p, content) :: fs) path = written_at fs path.
Proof. intros H. cbn [written_at]. now rewrite H. Qed.

Lemma written_at_four fs f1 f2 f3 f4 p1 p2 p3 p4 :
  Str.eqb f2 f1 = false -> Str.eqb f3 f1 = false -> Str.eqb f4 f1 = false ->
  Str.eqb f3 f2 = false -> Str.eqb f4 f2 = false -> Str.eqb f4 f3 = false ->
  let fs' := (f4, p4) :: (f3, p3) :: (f2, p2) :: (f1, p1) :: fs in
  written_at fs' f1 = Some p1 /\ written_at fs' f2 = Some p2
  /\ written_at fs' f3 = Some p3 /\ written_at fs' f4 = Some p4.
Proof.
  intros H21 H31 H41 H32 H42 H43. cbv zeta.
  repeat split;
    rewrite ?written_at_older by assumption; apply written_at_newest.
Qed.

(** X4.  A successful [generate_invoice] with explicit items makes exactly
    one write, to the path it returns: the file at that path then holds
    the page drawn, whether the path was new or held an earlier file,
    which is replaced.  The random generator and the clock are left as
    they were.  The path is the output directory (followed by a slash
    unless it is empty or ends with one), the upper-cased supplier key,
    [_INV_], the invoice number and [.pdf]. *)
Theorem X4_one_file_written {G} {R : Random G} k products inv po out items
    (w : world (G := G)) fname total w' :
  generate_invoice k products inv po out (Some items) w = Ok (fname, total, w') ->
  rng w' = rng w /\ now w' = now w
  /\ (exists page,
        files w' = (fname, page) :: files w
        /\ file_at w' fname = Some page)
  /\ fname
     = match rev out with
       | [] => []
       | 47%N :: _ => out
       | _ => out ++ py "/"
       end ++ Str.upper k ++ py "_INV_" ++ inv ++ py ".pdf".
Proof.
  intros H. pose proof (generate_invoice_Ok_valid _ _ _ _ _ _ _ _ H) as Hk.
  pose proof (generate_invoice_explicit_run k products inv po out items w Hk)
    as Hrun.
  cbv zeta in Hrun.
  destruct (sum_extended items (S754_zero false)) as [s|e];
    [|congruence].
  destruct Hrun as (page & amounts & Hgen & _).
  rewrite Hgen in H. injection H as <- <- <-.
  unfold file_at. cbn [rng now files]. repeat split.
  - eexists. split; [reflexivity|apply written_at_newest].
  - apply path_join_key, Hk.
Qed.

(** The theorem at the seafood invoice of [main], generated a second
    time in the world the first run leaves: the file written first is
    replaced. *)
Lemma X4_witness :
  exists fname0 total0 w fname total w',
    main_seafood world0 = Ok (fname0, total0, w)
    /\ main_seafood w = Ok (fname, total, w')
    /\ fname = fname0
    /\ rng w' = rng w /\ now w' = now w
    /\ (exists page,
          files w' = (fname, page) :: files w
          /\ file_at w' fname = Some page)
    /\ fname
       = match rev output_dir with
         | [] => []
         | 47%N :: _ => output_dir
         | _ => output_dir ++ py "/"
         end ++ Str.upper (py "norref") ++ py "_INV_" ++ py "NRF-78234"
           ++ py ".pdf".
Proof.
  destruct (main_seafood world0) as [[[fname0 total0] w]|e] eqn:H0;
    [|vm_compute in H0; discriminate H0].
  destruct (main_seafood w) as [[[fname total] w']|e] eqn:H.
  2: { unfold main_seafood in H.
       pose proof (generate_invoice_explicit_run (py "norref") SEAFOOD_PRODUCTS
                     (py "NRF-78234") (py "PO-2025-1247") output_dir
                     seafood_items w valid_norref) as Hrun.
       cbv zeta in Hrun.
       assert (Hs : sum_extended seafood_items (S754_zero false)
                    = Ok (S754_finite false 8802470189649100 (-42)))
         by (vm_compute; reflexivity).
       rewrite Hs in Hrun. destruct Hrun as (page & amounts & Hgen & _).
       rewrite Hgen in H. discriminate H. }
  exists fname0, total0, w, fname, total, w'.
  split; [reflexivity|]. split; [exact H|].
  pose proof (X4_one_file_written (py "norref") SEAFOOD_PRODUCTS (py "NRF-78234")
                (py "PO-2025-1247") output_dir seafood_items w fname total w' H)
    as HX.
  pose proof (X4_one_file_written (py "norref") SEAFOOD_PRODUCTS (py "NRF-78234")
                (py "PO-2025-1247") output_dir seafood_items world0 fname0 total0
                w H0) as HX0.
  split; [|exact HX].
  destruct HX as (_ & _ & _ & ->). destruct HX0 as (_ & _ & _ & ->).
  reflexivity.
Defined.

Lemma generate_invoice_random {G} {R : Random G} k products inv po out
    (w : world (G := G)) items g' :
  select_items products (rng w) = Ok (items, g') ->
  generate_invoice k products inv po out None w
  = generate_invoice k products inv po out (Some items)
      (World g' (now w) (files w)).
Proof.
  intros H. unfold generate_invoice. cbn [letter rng now files].
  rewrite H. reflexivity.
Qed.

(** X5.  Without explicit items [generate_invoice] never fails for a
    supplier key of [SUPPLIERS], whatever the catalog (even an empty one)
    and the outcome of the draws: it is the invoice of the items that the
    random selection yields, generated from the generator state the
    selection leaves, and the description column lists those items. *)
Theorem X5_random_invoice {G} {R : Random G} (L : RandomLaws G) k products inv
    po out (w : world (G := G)) :
  valid_key k ->
  exists items g' fname total page,
    select_items products (rng w) = Ok (items, g')
    /\ generate_invoice k products inv po out None w
       = generate_invoice k products inv po out (Some items)
           (World g' (now w) (files w))
    /\ generate_invoice k products inv po out None w
       = Ok (fname, total, World g' (now w) ((fname, page) :: files w))
    /\ strings_at 95 page
       = py "Description"
         :: map (fun it =>
                   if 32 <? Str.len (description it)
                   then firstn 30 (description it) ++ py ".."
                   else description it) items.
Proof.
  intros Hk.
  destruct (select_items_spec products (rng w))
    as (n & items & g' & Hsel & _ & _ & _ & Hq).
  pose proof (generate_invoice_random k products inv po out w items g' Hsel)
    as Hrand.
  pose proof (generate_invoice_explicit_run k products inv po out items
                (World g' (now w) (files w)) Hk) as Hrun.
  cbv zeta in Hrun.
  destruct (sum_extended_total items (S754_zero false)) as [s Hs].
  { eapply Forall_impl; [|exact Hq]. intros it Hit. cbv beta in Hit.
    destruct (of_int_small (quantity it)) as [x ->]; [|discriminate].
    apply Z.lt_le_trans with 6; [lia|]. now vm_compute. }
  rewrite Hs in Hrun. destruct Hrun as (page & amounts & Hgen & Hdesc & _).
  cbn [rng now files] in Hgen.
  exists items, g'. do 2 eexists. exists page.
  split; [exact Hsel|]. split; [exact Hrand|].
  split; [rewrite Hrand; exact Hgen|exact Hdesc].
Qed.

(** The theorem at the tape generator and an empty catalog. *)
Lemma X5_witness :
  RandomLaws tape /\ valid_key (py "norref")
  /\ exists items g' fname total page,
       select_items [] (rng world0) = Ok (items, g')
       /\ generate_invoice (py "norref") [] (py "NRF-1") (py "PO-1") output_dir
            None world0
          = generate_invoice (py "norref") [] (py "NRF-1") (py "PO-1")
              output_dir (Some items) (World g' (now world0) (files world0))
       /\ generate_invoice (py "norref") [] (py "NRF-1") (py "PO-1") output_dir
            None world0
          = Ok (fname, total,
                World g' (now world0) ((fname, page) :: files world0))
       /\ strings_at 95 page
          = py "Description"
            :: map (fun it =>
                      if 32 <? Str.len (description it)
                      then firstn 30 (description it) ++ py ".."
                      else description it) items.
Proof.
  split; [exact tape_laws|]. split; [exact valid_norref|].
  exact (X5_random_invoice tape_laws (py "norref") [] (py "NRF-1") (py "PO-1")
           output_dir world0 valid_norref).
Defined.

(** X6.  An empty list of items gives, for every supplier of [SUPPLIERS],
    an invoice with no row: subtotal 0.00, freight 25.00, fuel 8.00,
    taxes 1.65 and 3.29, and the grand total 37.94175. *)
Theorem X6_empty_invoice {G} {R : Random G} k products inv po out
    (w : world (G := G)) :
  valid_key k ->
  exists fname page,
    generate_invoice k products inv po out (Some []) w
    = Ok (fname, S754_finite false 5339826598805766 (-47),
          World (rng w) (now w) ((fname, page) :: files w))
    /\ strings_at 95 page = [py "Description"]
    /\ right_strings_at 555 page
       = map py ["Montant"; "$0.00"; "$25.00"; "$8.00"; "$1.65"; "$3.29";
                 "$37.94"]%string.
Proof.
  intros Hk.
  pose proof (generate_invoice_explicit_run k products inv po out [] w Hk)
    as Hrun.
  cbn [sum_extended] in Hrun. cbv zeta in Hrun.
  destruct Hrun as (page & amounts & Hgen & Hdesc & Hcol & Hamt).
  inversion Hamt; subst.
  do 2 eexists. split; [exact Hgen|]. split; [exact Hdesc|].
  rewrite Hcol. vm_compute. reflexivity.
Qed.

(** The theorem at the packaging supplier. *)
Lemma X6_witness :
  valid_key (py "carrousel")
  /\ exists fname page,
       generate_invoice (G := tape) (py "carrousel") PACKAGING_PRODUCTS
         (py "CRS-1") (py "PO-1") output_dir (Some []) world0
       = Ok (fname, S754_finite false 5339826598805766 (-47),
             World (rng world0) (now world0) ((fname, page) :: files world0))
       /\ strings_at 95 page = [py "Description"]
       /\ right_strings_at 555 page
          = map py ["Montant"; "$0.00"; "$25.00"; "$8.00"; "$1.65"; "$3.29";
                    "$37.94"]%string.
Proof.
  split; [exact valid_carrousel|].
  exact (X6_empty_invoice (py "carrousel") PACKAGING_PRODUCTS (py "CRS-1")
           (py "PO-1") output_dir world0 valid_carrousel).
Defined.

(** ** The layout of the line-item table *)

Lemma centred_strings_at_app x a b :
  centred_strings_at x (a ++ b) = centred_strings_at x a ++ centred_strings_at x b.
Proof. apply flat_map_app. Qed.

Lemma heights_at_app x a b :
  heights_at x (a ++ b) = heights_at x a ++ heights_at x b.
Proof. apply flat_map_app. Qed.

Lemma filled_rects_at_app x h a b :
  filled_rects_at x h (a ++ b) = filled_rects_at x h a ++ filled_rects_at x h b.
Proof. apply flat_map_app. Qed.

Lemma parity_succ r : ((r + 1) mod 2 =? 0) = negb (r mod 2 =? 0).
Proof.
  pose proof (Z.mod_pos_bound r 2 ltac:(lia)) as Hr.
  pose proof (Z.mod_pos_bound (r + 1) 2 ltac:(lia)) as Hr1.
  assert (H : (r + 1) mod 2 = (r mod 2 + 1) mod 2).
  { rewrite Z.add_mod by lia. reflexivity. }
  destruct (Z.eqb_spec (r mod 2) 0) as [E|E]; cbn [negb].
  - rewrite H, E. reflexivity.
  - assert (E1 : r mod 2 = 1) by lia. rewrite H, E1. reflexivity.
Qed.

Ltac decide_eqb :=
  repeat match goal with
  | |- context [?a =? ?b] =>
    first [ replace (a =? b) with false by (symmetry; apply Z.eqb_neq; lia)
          | replace (a =? b) with true by (symmetry; apply Z.eqb_eq; lia) ]
  end.

Ltac split_columns :=
  rewrite ?strings_at_app, ?right_strings_at_app, ?centred_strings_at_app,
    ?heights_at_app, ?filled_rects_at_app.

Lemma draw_line_items_loop_layout : forall items c w y s r y' s' c',
  draw_line_items_loop c w items y s r = Ok (y', s', c') ->
  exists ops,
    c' = emit c ops
    /\ strings_at 35 ops = map item_code items
    /\ heights_at 35 ops = row_heights y (List.length items)
    /\ strings_at 320 ops = map pack_of items
    /\ centred_strings_at 385 ops
       = map (fun it => Str.of_int (quantity it)) items
    /\ right_strings_at 460 ops
       = map (fun it => F64.money (unit_price it)) items
    /\ filled_rects_at 30 14 ops
       = shaded_from (r mod 2 =? 0) (row_heights y (List.length items))
    /\ (forall x, x <> 35 -> x <> 95 -> x <> 320 -> strings_at x ops = [])
    /\ (forall x, x <> 460 -> x <> 555 -> right_strings_at x ops = [])
    /\ (forall x, x <> 385 -> centred_strings_at x ops = [])
    /\ (forall x h, h <> 14 -> filled_rects_at x h ops = []).
Proof.
  induction items as [|it items IH]; intros c w y s r y' s' c' H.
  - cbn [draw_line_items_loop] in H. injection H as <- <- <-.
    exists []. rewrite emit_nil. repeat split.
  - destruct it as [[[[code desc] pack] qty] price].
    cbn [draw_line_items_loop] in H.
    destruct (int_mul_float qty price) as [extended|e]; cbn [bind] in H;
      [|discriminate H].
    apply IH in H.
    destruct H as (ops & Hc & H35 & Hh & H320 & H385 & H460 & Hshade
                   & Hsx & Hrx & Hcx & Hfx).
    rewrite parity_succ in Hshade.
    cbn [List.length map row_heights shaded_from item_code pack_of quantity
         unit_price].
    destruct (r mod 2 =? 0); rewrite ?emit_emit in Hc;
      (eexists; split; [exact Hc|]);
      split_columns;
      rewrite H35, Hh, H320, H385, H460, Hshade;
      (repeat split; try reflexivity);
      intros; split_columns;
      rewrite ?Hsx, ?Hrx, ?Hcx, ?Hfx by assumption;
      cbn [strings_at right_strings_at centred_strings_at filled_rects_at
           flat_map app];
      decide_eqb; rewrite ?andb_false_r; reflexivity.
Qed.

Lemma emit_inj c a b : emit c a = emit c b -> a = b.
Proof.
  unfold emit. intros H. injection H as H. exact (app_inv_head _ _ _ H).
Qed.

Lemma draw_line_items_layout c y w items cs :
  Forall (fun it => F64.of_int (quantity it) <> None) items ->
  exists subtotal ops,
    draw_line_items c y w items cs
    = Ok (y - 5 - 14 * Z.of_nat (List.length items), subtotal, emit c ops)
    /\ strings_at 95 ops
       = py "Description"
         :: map (fun it =>
                   if 32 <? Str.len (description it)
                   then firstn 30 (description it) ++ py ".."
                   else description it) items
    /\ strings_at 35 ops = py "Code" :: map item_code items
    /\ heights_at 35 ops = (y + 5) :: row_heights (y - 5) (List.length items)
    /\ strings_at 320 ops = py "Format" :: map pack_of items
    /\ strings_at 375 ops = [py "Qté"]
    /\ centred_strings_at 385 ops
       = map (fun it => Str.of_int (quantity it)) items
    /\ right_strings_at 460 ops
       = py "Prix Unit." :: map (fun it => F64.money (unit_price it)) items
    /\ filled_rects_at 30 14 ops
       = shaded_from true (row_heights (y - 5) (List.length items))
    /\ (forall x, x <> 35 -> x <> 95 -> x <> 320 -> x <> 375 ->
                  strings_at x ops = [])
    /\ (forall x, x <> 460 -> x <> 555 -> right_strings_at x ops = [])
    /\ (forall x, x <> 385 -> centred_strings_at x ops = [])
    /\ (forall x h, h <> 14 -> h <> 18 -> filled_rects_at x h ops = []).
Proof.
  intros Hq.
  destruct (draw_line_items_total c y w items cs Hq)
    as (y' & s & ops & amounts & Hd & _ & Hdesc & _).
  pose proof (draw_line_items_spec c y w items cs) as Hy.
  rewrite Hd in Hy. destruct Hy as (_ & -> & _).
  exists s, ops. split; [exact Hd|]. split; [exact Hdesc|].
  unfold draw_line_items in Hd.
  apply draw_line_items_loop_layout in Hd.
  destruct Hd as (ops' & Hc & H35 & Hh & H320 & H385 & H460 & Hshade
                  & Hsx & Hrx & Hcx & Hfx).
  rewrite !emit_emit in Hc. apply emit_inj in Hc. subst ops.
  split_columns.
  rewrite H35, Hh, H320, H385, H460, Hshade.
  rewrite (Hsx 375) by lia.
  repeat split; try reflexivity;
    intros; split_columns;
    rewrite ?Hsx, ?Hrx, ?Hcx, ?Hfx by assumption;
    cbn [strings_at right_strings_at centred_strings_at filled_rects_at
         flat_map app];
    decide_eqb; rewrite ?andb_false_r; reflexivity.
Qed.

Lemma shown_description_length desc :
  (List.length (if (32 <? Str.len desc)%Z
                then firstn 30 desc ++ py ".." else desc) <= 32)%nat.
Proof.
  unfold Str.len. destruct (Z.ltb_spec 32 (Z.of_nat (List.length desc))).
  - rewrite length_app, length_firstn.
    change (List.length (py "..")) with 2%nat. lia.
  - lia.
Qed.

(** X7.  No text in the description column of the line-item table is
    longer than 32 characters, whatever the descriptions of the items:
    a description is shown whole up to 32 characters, and as 30
    characters and two dots beyond. *)
Theorem X7_description_column_width c y w items cs :
  Forall (fun it => F64.of_int (quantity it) <> None) items ->
  exists y' subtotal ops,
    draw_line_items c y w items cs = Ok (y', subtotal, emit c ops)
    /\ List.length (strings_at 95 ops) = S (List.length items)
    /\ Forall (fun text => (List.length text <= 32)%nat) (strings_at 95 ops).
Proof.
  intros Hq.
  destruct (draw_line_items_layout c y w items cs Hq)
    as (s & ops & Hd & Hdesc & _).
  do 2 eexists. exists ops. split; [exact Hd|].
  rewrite Hdesc. split.
  - cbn [List.length]. now rewrite length_map.
  - constructor; [vm_compute; lia|].
    apply Forall_map, Forall_forall. intros it _.
    apply shown_description_length.
Qed.

(** The theorem at descriptions of 39 and of 32 characters. *)
Lemma X7_witness :
  Forall (fun it => F64.of_int (quantity it) <> None)
    [long_item; accented_item]
  /\ exists y' subtotal ops,
       draw_line_items canvas0 552 612 [long_item; accented_item] palette0
       = Ok (y', subtotal, emit canvas0 ops)
       /\ List.length (strings_at 95 ops) = 3%nat
       /\ Forall (fun text => (List.length text <= 32)%nat) (strings_at 95 ops).
Proof.
  assert (H : Forall (fun it => F64.of_int (quantity it) <> None)
                [long_item; accented_item]).
  { repeat constructor; vm_compute; discriminate. }
  split; [exact H|].
  exact (X7_description_column_width canvas0 552 612 [long_item; accented_item]
           palette0 H).
Defined.

(** X8.  The line-item table has one row per item, 14 points apart: the
    column headers are at [y_start + 5], the row of the item of rank [i]
    is at [y_start - 5 - 14 i], the position returned is that of the row
    after the last, and the shaded rows are exactly those of even rank
    (the first, the third, ...), each shaded from 4 points below its
    baseline. *)
Theorem X8_rows_and_shading c y_start w items cs :
  Forall (fun it => F64.of_int (quantity it) <> None) items ->
  exists subtotal ops,
    draw_line_items c y_start w items cs
    = Ok (y_start - 5 - 14 * Z.of_nat (List.length items), subtotal, emit c ops)
    /\ heights_at 35 ops
       = (y_start + 5) :: row_heights (y_start - 5) (List.length items)
    /\ filled_rects_at 30 14 ops
       = shaded_from true (row_heights (y_start - 5) (List.length items)).
Proof.
  intros Hq.
  destruct (draw_line_items_layout c y_start w items cs Hq)
    as (s & ops & Hd & _ & _ & Hh & _ & _ & _ & _ & Hshade & _).
  exists s, ops. repeat split; assumption.
Qed.

(** The theorem at three items drawn from the height 552. *)
Lemma X8_witness :
  Forall (fun it => F64.of_int (quantity it) <> None) dimes
  /\ exists subtotal ops,
       draw_line_items canvas0 552 612 dimes palette0
       = Ok (505, subtotal, emit canvas0 ops)
       /\ heights_at 35 ops = [557; 547; 533; 519]
       /\ filled_rects_at 30 14 ops = [543; 515].
Proof.
  assert (H : Forall (fun it => F64.of_int (quantity it) <> None) dimes).
  { repeat constructor; vm_compute; discriminate. }
  split; [exact H|].
  exact (X8_rows_and_shading canvas0 552 612 dimes palette0 H).
Defined.

(** X9.  Besides the description and the amount, each row of the table
    shows the fields of its item unchanged: the code, the pack, the
    quantity in decimal and the unit price with two decimals, under the
    headers Code, Format, Qté and Prix Unit., in the order of the list. *)
Theorem X9_columns c y w items cs :
  Forall (fun it => F64.of_int (quantity it) <> None) items ->
  exists y' subtotal ops,
    draw_line_items c y w items cs = Ok (y', subtotal, emit c ops)
    /\ strings_at 35 ops = py "Code" :: map item_code items
    /\ strings_at 320 ops = py "Format" :: map pack_of items
    /\ strings_at 375 ops = [py "Qté"]
    /\ centred_strings_at 385 ops
       = map (fun it => Str.of_int (quantity it)) items
    /\ right_strings_at 460 ops
       = py "Prix Unit." :: map (fun it => F64.money (unit_price it)) items.
Proof.
  intros Hq.
  destruct (draw_line_items_layout c y w items cs Hq)
    as (s & ops & Hd & _ & H35 & _ & H320 & H375 & H385 & H460 & _).
  do 2 eexists. exists ops. repeat split; eassumption.
Qed.

(** The theorem at two items. *)
Lemma X9_witness :
  Forall (fun it => F64.of_int (quantity it) <> None)
    [long_item; three_at_110]
  /\ exists y' subtotal ops,
       draw_line_items canvas0 552 612 [long_item; three_at_110] palette0
       = Ok (y', subtotal, emit canvas0 ops)
       /\ strings_at 35 ops = map py ["Code"; "X-5"; "X-4"]%string
       /\ strings_at 320 ops = map py ["Format"; "KG"; "EA"]%string
       /\ strings_at 375 ops = [py "Qté"]
       /\ centred_strings_at 385 ops = map py ["2"; "3"]%string
       /\ right_strings_at 460 ops
          = map py ["Prix Unit."; "$42.50"; "$1.10"]%string.
Proof.
  assert (H : Forall (fun it => F64.of_int (quantity it) <> None)
                [long_item; three_at_110]).
  { repeat constructor; vm_compute; discriminate. }
  split; [exact H|].
  exact (X9_columns canvas0 552 612 [long_item; three_at_110] palette0 H).
Defined.

(** ** The page as a whole *)

Lemma draw_header_facts c k inv d po s cs :
  dict_get SUPPLIERS k = Ok s -> dict_get SUPPLIER_COLORS k = Ok cs ->
  exists ops,
    draw_header c 612 792 k inv d po = Ok (792 - 130, emit c ops)
    /\ right_strings_at 562 ops = [inv; d; py "MTL-458923"; po]
    /\ strings_at 35 ops = [name s; tagline s]
    /\ strings_at 380 ops = [] /\ strings_at 40 ops = []
    /\ filled_rects_at 30 55 ops = [] /\ filled_rects_at 0 25 ops = [].
Proof.
  intros Hs Hcs. unfold draw_header. rewrite Hs, Hcs. cbn [bind].
  rewrite !emit_emit. eexists. repeat split.
Qed.

Lemma draw_addresses_facts c y k s cs :
  dict_get SUPPLIERS k = Ok s -> dict_get SUPPLIER_COLORS k = Ok cs ->
  exists ops,
    draw_addresses c y k = Ok (y - 70, emit c ops)
    /\ right_strings_at 562 ops = []
    /\ strings_at 380 ops = [] /\ strings_at 40 ops = []
    /\ filled_rects_at 30 55 ops = [] /\ filled_rects_at 0 25 ops = [].
Proof.
  intros Hs Hcs. unfold draw_addresses. rewrite Hs, Hcs. cbn [bind].
  rewrite !emit_emit. eexists. repeat split.
Qed.

Lemma draw_totals_facts c y subtotal k freight fuel s cs :
  dict_get SUPPLIERS k = Ok s -> dict_get SUPPLIER_COLORS k = Ok cs ->
  exists total ops,
    draw_totals c y 612 subtotal k (Some freight) (Some fuel)
    = Ok (y - 15 - 14 - 14 - 14 - 14 - 20 - 20, total, emit c ops)
    /\ right_strings_at 562 ops = []
    /\ strings_at 380 ops = [] /\ strings_at 40 ops = []
    /\ filled_rects_at 30 55 ops = [] /\ filled_rects_at 0 25 ops = [].
Proof.
  intros Hs Hcs. unfold draw_totals. rewrite Hs, Hcs. cbn [bind].
  rewrite !emit_emit. do 2 eexists. repeat split.
Qed.

Lemma draw_footer_facts c y k s cs :
  dict_get SUPPLIERS k = Ok s -> dict_get SUPPLIER_COLORS k = Ok cs ->
  exists ops,
    draw_footer c y 612 792 k = Ok (emit c ops)
    /\ right_strings_at 562 ops = []
    /\ strings_at 380 ops = [py "TPS/GST: " ++ gst s; py "TVQ/QST: " ++ qst s]
    /\ strings_at 40 ops
       = [py "CONDITIONS / TERMS:"; terms s;
          py "Veuillez référer au numéro de facture / Please reference invoice #"]
    /\ filled_rects_at 30 55 ops = [y - 55]
    /\ filled_rects_at 0 25 ops = [25].
Proof.
  intros Hs Hcs. unfold draw_footer. rewrite Hs, Hcs. cbn [bind].
  eexists. repeat split.
Qed.

Lemma generate_invoice_page {G} {R : Random G} k products inv po out items
    (w : world (G := G)) s cs :
  dict_get SUPPLIERS k = Ok s -> dict_get SUPPLIER_COLORS k = Ok cs ->
  Forall (fun it => F64.of_int (quantity it) <> None) items ->
  exists fname total page,
    generate_invoice k products inv po out (Some items) w
    = Ok (fname, total, World (rng w) (now w) ((fname, page) :: files w))
    /\ right_strings_at 562 page
       = [inv; strftime_dmY (now w); py "MTL-458923"; po]
    /\ strings_at 380 page
       = [py "TPS/GST: " ++ gst s; py "TVQ/QST: " ++ qst s]
    /\ strings_at 40 page
       = [py "CONDITIONS / TERMS:"; terms s;
          py "Veuillez référer au numéro de facture / Please reference invoice #"]
    /\ filled_rects_at 30 55 page
       = [341 - 14 * Z.of_nat (List.length items)]
    /\ filled_rects_at 0 25 page = [25].
Proof.
  intros Hs Hcs Hq. unfold generate_invoice. cbn [letter].
  rewrite Hs, Hcs. cbn [bind].
  match goal with
  | |- context [draw_header ?c _ _ k inv ?d po] =>
    destruct (draw_header_facts c k inv d po s cs Hs Hcs)
      as (opsH & -> & H1 & _ & H2 & H3 & H4 & H5)
  end.
  cbn [bind].
  match goal with
  | |- context [draw_addresses ?c ?y k] =>
    destruct (draw_addresses_facts c y k s cs Hs Hcs)
      as (opsA & -> & A1 & A2 & A3 & A4 & A5)
  end.
  cbn [bind].
  match goal with
  | |- context [draw_line_items ?c ?y 612 items cs] =>
    destruct (draw_line_items_layout c y 612 items cs Hq)
      as (subtotal & opsL & -> & _ & _ & _ & _ & _ & _ & _ & _
          & Ls & Lr & _ & Lf)
  end.
  cbn [bind].
  match goal with
  | |- context [draw_totals ?c ?y 612 subtotal k (Some ?fr) (Some ?fu)] =>
    destruct (draw_totals_facts c y subtotal k fr fu s cs Hs Hcs)
      as (total & opsT & -> & T1 & T2 & T3 & T4 & T5)
  end.
  cbn [bind].
  match goal with
  | |- context [draw_footer ?c ?y 612 792 k] =>
    destruct (draw_footer_facts c y k s cs Hs Hcs)
      as (opsF & -> & F1 & F2 & F3 & F4 & F5)
  end.
  cbn [bind].
  do 3 eexists. split; [reflexivity|].
  cbn [emit cv_ops app]. split_columns.
  rewrite H1, H2, H3, H4, H5, A1, A2, A3, A4, A5, T1, T2, T3, T4, T5,
    F1, F2, F3, F4, F5.
  rewrite (Ls 380), (Ls 40), (Lr 562), (Lf 30 55), (Lf 0 25) by lia.
  cbn [app]. repeat split. f_equal. lia.
Qed.

Lemma dict_get_Ok_In {V} (d : list (str * V)) k v :
  dict_get d k = Ok v -> In k (map fst d).
Proof.
  induction d as [|[k' v'] d IH]; simpl; [discriminate|].
  destruct (Str_eqb_spec k' k) as [->|ne]; [now left|].
  intros H. right. exact (IH H).
Qed.

(** X10.  The saved page of an invoice carries, in the box of the
    header, the invoice number, the date of the clock as dd/mm/yyyy, the
    customer number MTL-458923 and the purchase-order number, in this
    order; and in the footer the payment terms and the two tax
    registration numbers of the supplier the key designates. *)
Theorem X10_header_box_and_footer {G} {R : Random G} k products inv po out
    items (w : world (G := G)) s :
  dict_get SUPPLIERS k = Ok s ->
  Forall (fun it => F64.of_int (quantity it) <> None) items ->
  exists fname total w' page,
    generate_invoice k products inv po out (Some items) w = Ok (fname, total, w')
    /\ saved_page w' = Some (fname, page)
    /\ right_strings_at 562 page
       = [inv; strftime_dmY (now w); py "MTL-458923"; po]
    /\ strings_at 40 page
       = [py "CONDITIONS / TERMS:"; terms s;
          py "Veuillez référer au numéro de facture / Please reference invoice #"]
    /\ strings_at 380 page
       = [py "TPS/GST: " ++ gst s; py "TVQ/QST: " ++ qst s].
Proof.
  intros Hs Hq.
  destruct (valid_key_get k (dict_get_Ok_In _ _ _ Hs)) as (s' & cs & Hs' & Hcs).
  destruct (generate_invoice_page k products inv po out items w s cs Hs Hcs Hq)
    as (fname & total & page & Hgen & H1 & H2 & H3 & _).
  exists fname, total. do 2 eexists.
  split; [exact Hgen|]. split; [reflexivity|]. repeat split; assumption.
Qed.

(** The theorem at the produce invoice of [main]. *)
Lemma X10_witness :
  exists s,
    dict_get SUPPLIERS (py "courchesne") = Ok s
    /\ Forall (fun it => F64.of_int (quantity it) <> None) produce_items
    /\ exists fname total w' page,
         generate_invoice (G := tape) (py "courchesne") PRODUCE_PRODUCTS
           (py "CLR-92341") (py "PO-2025-1249") output_dir (Some produce_items)
           world0
         = Ok (fname, total, w')
         /\ saved_page w' = Some (fname, page)
         /\ right_strings_at 562 page
            = [py "CLR-92341"; strftime_dmY (now world0); py "MTL-458923";
               py "PO-2025-1249"]
         /\ strings_at 40 page
            = [py "CONDITIONS / TERMS:"; terms s;
               py "Veuillez référer au numéro de facture / Please reference invoice #"]
         /\ strings_at 380 page
            = [py "TPS/GST: " ++ gst s; py "TVQ/QST: " ++ qst s].
Proof.
  assert (Hq : Forall (fun it => F64.of_int (quantity it) <> None)
                 produce_items).
  { repeat constructor; vm_compute; discriminate. }
  destruct (dict_get SUPPLIERS (py "courchesne")) as [s|e] eqn:Hs;
    [|vm_compute in Hs; discriminate Hs].
  exists s. split; [reflexivity|]. split; [exact Hq|].
  exact (X10_header_box_and_footer (py "courchesne") PRODUCE_PRODUCTS
           (py "CLR-92341") (py "PO-2025-1249") output_dir produce_items world0
           s Hs Hq).
Defined.

(** X11.  Nothing is moved to a second page: the block of payment terms
    of the footer, 55 points high, is drawn with its lower edge at
    [341 - 14 n] for [n] items, and the bar at the bottom of the page
    covers the heights 25 to 50; the block stays above the bar exactly
    when there are at most 20 items. *)
Theorem X11_footer_position {G} {R : Random G} k products inv po out items
    (w : world (G := G)) :
  valid_key k ->
  Forall (fun it => F64.of_int (quantity it) <> None) items ->
  exists fname total w' page,
    generate_invoice k products inv po out (Some items) w = Ok (fname, total, w')
    /\ saved_page w' = Some (fname, page)
    /\ filled_rects_at 30 55 page = [341 - 14 * Z.of_nat (List.length items)]
    /\ filled_rects_at 0 25 page = [25]
    /\ (25 + 25 <= 341 - 14 * Z.of_nat (List.length items)
        <-> (List.length items <= 20)%nat).
Proof.
  intros Hk Hq.
  destruct (valid_key_get k Hk) as (s & cs & Hs & Hcs).
  destruct (generate_invoice_page k products inv po out items w s cs Hs Hcs Hq)
    as (fname & total & page & Hgen & _ & _ & _ & H4 & H5).
  exists fname, total. do 2 eexists.
  split; [exact Hgen|]. split; [reflexivity|].
  split; [exact H4|]. split; [exact H5|]. lia.
Qed.

(** The theorem at the produce invoice of [main], of 15 items. *)
Lemma X11_witness :
  valid_key (py "courchesne")
  /\ Forall (fun it => F64.of_int (quantity it) <> None) produce_items
  /\ exists fname total w' page,
       generate_invoice (G := tape) (py "courchesne") PRODUCE_PRODUCTS
         (py "CLR-92341") (py "PO-2025-1249") output_dir (Some produce_items)
         world0
       = Ok (fname, total, w')
       /\ saved_page w' = Some (fname, page)
       /\ filled_rects_at 30 55 page = [131]
       /\ filled_rects_at 0 25 page = [25]
       /\ (25 + 25 <= 131 <-> (15 <= 20)%nat).
Proof.
  assert (Hk : valid_key (py "courchesne")) by (do 2 right; left; reflexivity).
  assert (Hq : Forall (fun it => F64.of_int (quantity it) <> None)
                 produce_items).
  { repeat constructor; vm_compute; discriminate. }
  split; [exact Hk|]. split; [exact Hq|].
  exact (X11_footer_position (py "courchesne") PRODUCE_PRODUCTS
           (py "CLR-92341") (py "PO-2025-1249") output_dir produce_items world0
           Hk Hq).
Defined.

(** ** The batch driver *)

(** X12.  The summary of [main] prints one line per generated invoice, in
    the order of the list, after what was printed before, and its grand
    total is the sum of the totals accumulated in that order from the
    starting value. *)
Theorem X12_summary_loop invoices_generated : forall out grand_total,
  summary_loop invoices_generated out grand_total
  = (out ++ map (fun '(name, _, total) =>
                   py "  " ++ ljust 30 name ++ py " $"
                   ++ rjust 10 (F64.format_2f total)) invoices_generated,
     fold_left (fun acc '(_, _, total) => F64.add acc total)
       invoices_generated grand_total).
Proof.
  induction invoices_generated as [|[[name filepath] total] rest IH];
    intros out grand_total; cbn [summary_loop map fold_left].
  - now rewrite app_nil_r.
  - rewrite IH, <- app_assoc. reflexivity.
Qed.

(** X13.  [main] succeeds in every world: it generates the seafood,
    meat, produce and packaging invoices in this order and makes exactly
    four writes, one to each of their four paths, so that each of these
    paths then holds the page of its invoice, also where [main] has run
    before and the files exist (they are replaced); it leaves the
    generator and the clock as they were, returns the output directory
    with the four labels, paths and totals, and prints the report that
    ends with the grand total $9,098.42. *)
Theorem X13_main {G} {R : Random G} (w : world (G := G)) :
  exists page1 page2 page3 page4,
    let f1 := py "/home/claude/invoices/NORREF_INV_NRF-78234.pdf" in
    let f2 := py "/home/claude/invoices/DISTROBEC_INV_DST-45612.pdf" in
    let f3 := py "/home/claude/invoices/COURCHESNE_INV_CLR-92341.pdf" in
    let f4 := py "/home/claude/invoices/CARROUSEL_INV_CRS-12789.pdf" in
    let w' :=
      World (rng w) (now w)
        ((f4, page4) :: (f3, page3) :: (f2, page2) :: (f1, page1) :: files w) in
    main w
    = Ok (py "/home/claude/invoices",
          [ (py "Norref (Seafood)", f1, S754_finite false 5295555593244645 (-41));
            (py "Distrobec (Meat)", f2, S754_finite false 7533352527116327 (-41));
            (py "Courchesne Larose (Produce)", f3,
             S754_finite false 7236172972938473 (-42));
            (py "Carrousel (Packaging)", f4,
             S754_finite false 7121285794600530 (-42)) ],
          w',
          [ rule60; py "KitchenCommand Invoice Test Suite Generator"; rule60;
            [];
            py "Generating NORREF (Seafood) invoice...";
            py "   ✓ Created: /home/claude/invoices/NORREF_INV_NRF-78234.pdf";
            py "   Total: $2,408.14"; [];
            py "Generating DISTROBEC (Meat) invoice...";
            py "   ✓ Created: /home/claude/invoices/DISTROBEC_INV_DST-45612.pdf";
            py "   Total: $3,425.77"; [];
            py "Generating COURCHESNE LAROSE (Produce) invoice...";
            py "   ✓ Created: /home/claude/invoices/COURCHESNE_INV_CLR-92341.pdf";
            py "   Total: $1,645.32"; [];
            py "Generating CARROUSEL (Packaging) invoice...";
            py "   ✓ Created: /home/claude/invoices/CARROUSEL_INV_CRS-12789.pdf";
            py "   Total: $1,619.19"; [];
            rule60; py "SUMMARY - Invoices Generated"; rule60;
            py "  Norref (Seafood)               $  2,408.14";
            py "  Distrobec (Meat)               $  3,425.77";
            py "  Courchesne Larose (Produce)    $  1,645.32";
            py "  Carrousel (Packaging)          $  1,619.19";
            rule50;
            py "  GRAND TOTAL                    $  9,098.42"; [];
            py "All invoices saved to: /home/claude/invoices"; [] ])
    /\ file_at w' f1 = Some page1 /\ file_at w' f2 = Some page2
    /\ file_at w' f3 = Some page3 /\ file_at w' f4 = Some page4
    /\ map (right_strings_at 562) [page1; page2; page3; page4]
       = [ [py "NRF-78234"; strftime_dmY (now w); py "MTL-458923";
            py "PO-2025-1247"];
           [py "DST-45612"; strftime_dmY (now w); py "MTL-458923";
            py "PO-2025-1248"];
           [py "CLR-92341"; strftime_dmY (now w); py "MTL-458923";
            py "PO-2025-1249"];
           [py "CRS-12789"; strftime_dmY (now w); py "MTL-458923";
            py "PO-2025-1250"] ].
Proof.
  destruct w as [g t fs].
  eenough (Hrun : exists page1 page2 page3 page4, _ /\ _).
  { destruct Hrun as (page1 & page2 & page3 & page4 & Hmain & Hbox).
    exists page1, page2, page3, page4. cbv zeta.
    split; [exact Hmain|].
    unfold file_at. cbn [files rng now].
    lazymatch goal with
    | |- written_at ((?f4, _) :: (?f3, _) :: (?f2, _) :: (?f1, _) :: _) _ = _
         /\ _ =>
      destruct (written_at_four fs f1 f2 f3 f4 page1 page2 page3 page4)
        as (A & B & C & D); [vm_compute; reflexivity ..|]
    end.
    split; [exact A|]. split; [exact B|]. split; [exact C|].
    split; [exact D|exact Hbox]. }
  do 4 eexists. split; vm_compute; reflexivity.
Qed.

(** ** Amounts that are never negative *)

Lemma shr_1_nonneg mrs : 0 <= shr_m mrs -> 0 <= shr_m (shr_1 mrs).
Proof.
  destruct mrs as [m r s]. cbn [shr_m]. intros Hm.
  destruct m as [|[p|p|]|p]; cbn [shr_1 shr_m]; lia.
Qed.

Lemma iter_shr_1_nonneg p : forall mrs,
  0 <= shr_m mrs -> 0 <= shr_m (iter_pos shr_1 p mrs).
Proof.
  induction p as [p IH|p IH|]; intros mrs Hm; cbn [iter_pos].
  - apply IH, IH, shr_1_nonneg, Hm.
  - apply IH, IH, Hm.
  - apply shr_1_nonneg, Hm.
Qed.

Lemma shr_fexp_nonneg m e l :
  0 <= m -> 0 <= shr_m (fst (shr_fexp F64.prec F64.emax m e l)).
Proof.
  intros Hm. unfold shr_fexp, shr.
  assert (H0 : 0 <= shr_m (shr_record_of_loc m l))
    by (destruct l as [|[]]; exact Hm).
  destruct (fexp F64.prec F64.emax (Zdigits2 m + e) - e); cbn [fst];
    try exact H0.
  apply iter_shr_1_nonneg, H0.
Qed.

Lemma round_nearest_even_nonneg m l : 0 <= m -> 0 <= round_nearest_even m l.
Proof.
  intros Hm. destruct l as [|[]]; cbn [round_nearest_even]; try lia.
  destruct (Z.even m); lia.
Qed.

(** Rounding a non-negative mantissa yields a zero, a finite number or
    an infinity of the given sign, never a NaN. *)
Lemma binary_round_aux_sign s m e l :
  0 <= m ->
  match binary_round_aux F64.prec F64.emax s m e l with
  | S754_zero s' | S754_infinity s' | S754_finite s' _ _ => s' = s
  | S754_nan => False
  end.
Proof.
  intros Hm. unfold binary_round_aux.
  pose proof (shr_fexp_nonneg m e l Hm) as H1.
  destruct (shr_fexp F64.prec F64.emax m e l) as [mrs' e'].
  cbn [fst] in H1.
  pose proof (shr_fexp_nonneg
                (round_nearest_even (shr_m mrs') (loc_of_shr_record mrs'))
                e' loc_Exact (round_nearest_even_nonneg _ _ H1)) as H2.
  destruct (shr_fexp F64.prec F64.emax _ e' loc_Exact) as [mrs'' e''].
  cbn [fst] in H2.
  destruct (shr_m mrs'') as [|p|p]; [reflexivity| |lia].
  destruct (e'' <=? F64.emax - F64.prec); reflexivity.
Qed.

Lemma nonneg_of_sign x :
  match x with
  | S754_zero s' | S754_infinity s' | S754_finite s' _ _ => s' = false
  | S754_nan => False
  end -> nonneg x.
Proof. destruct x as [s|s| |s m e]; cbn [nonneg]; intros H; subst; tauto. Qed.

Lemma finite_nonneg_nonneg x : finite_nonneg x -> nonneg x.
Proof. destruct x as [s|s| |[] m e]; cbn; tauto. Qed.

Lemma of_int_nonneg i x :
  0 <= i -> F64.of_int i = Some x -> finite_nonneg x.
Proof.
  intros Hi. unfold F64.of_int.
  destruct i as [|m|m]; cbn [binary_normalize]; [| |lia].
  - intros H; injection H as <-. exact I.
  - unfold binary_round.
    destruct (shl_align m 0 _) as [mz ez].
    pose proof (binary_round_aux_sign false (Zpos mz) ez loc_Exact ltac:(lia))
      as Hs.
    destruct (binary_round_aux F64.prec F64.emax false (Zpos mz) ez loc_Exact)
      as [s|s| |s mm ee]; intros H; try discriminate H; try contradiction;
      injection H as <-; subst; exact I.
Qed.

Lemma mul_finite_nonneg x y :
  finite_nonneg x -> finite_nonneg y -> nonneg (F64.mul x y).
Proof.
  destruct x as [sx|sx| |[] mx ex], y as [sy|sy| |[] my ey];
    cbn [finite_nonneg]; try tauto; intros _ _;
    try exact I.
  apply nonneg_of_sign. unfold F64.mul, SFmul. cbn [xorb].
  apply binary_round_aux_sign. lia.
Qed.

Lemma mul_nonneg_positive x m e :
  nonneg x -> nonneg (F64.mul x (S754_finite false m e)).
Proof.
  destruct x as [sx|[]| |[] mx ex]; cbn [nonneg]; try tauto; intros _;
    try exact I.
  apply nonneg_of_sign. unfold F64.mul, SFmul. cbn [xorb].
  apply binary_round_aux_sign. lia.
Qed.

Lemma add_nonneg x y : nonneg x -> nonneg y -> nonneg (F64.add x y).
Proof.
  destruct x as [sx|[]| |[] mx ex], y as [sy|[]| |[] my ey];
    cbn [nonneg]; try tauto; intros _ _;
    try exact I; try (destruct sx, sy; exact I).
  apply nonneg_of_sign. unfold F64.add, SFadd, cond_Zopp.
  cbn [Z.add binary_normalize]. unfold binary_round.
  destruct (shl_align _ _ _) as [mz ez].
  apply binary_round_aux_sign. lia.
Qed.

Lemma div_half_even_nonneg a b : 0 <= a -> 0 < b -> 0 <= F64.div_half_even a b.
Proof.
  intros Ha Hb. unfold F64.div_half_even.
  pose proof (Z.div_pos a b Ha Hb).
  destruct (2 * (a mod b) ?= b); [destruct (Z.even _)| |]; lia.
Qed.

Lemma scaled_nonneg k m e : 0 <= k -> 0 <= F64.scaled k m e.
Proof.
  intros Hk. unfold F64.scaled. destruct (0 <=? e) eqn:He.
  - apply Z.leb_le in He. pose proof (Z.pow_nonneg 2 e ltac:(lia)). nia.
  - apply Z.leb_gt in He. apply div_half_even_nonneg; [nia|].
    apply Z.pow_pos_nonneg; lia.
Qed.

Lemma of_ratio_nonneg num den :
  0 <= num -> 0 < den -> nonneg (F64.of_ratio false num den).
Proof.
  intros Hn Hd. apply nonneg_of_sign. unfold F64.of_ratio, SFdiv_core_binary.
  set (m' := match _ with Z0 => num | Zpos _ => Z.shiftl num _ | Zneg _ => 0 end).
  assert (Hm' : 0 <= m').
  { unfold m'. destruct (_ - _ - _) as [|p|p]; try lia.
    apply Z.shiftl_nonneg, Hn. }
  pose proof (Z.div_pos m' den Hm' Hd) as Hq.
  unfold Z.div in Hq.
  destruct (Z.div_eucl m' den) as [q r]. cbn [fst] in Hq.
  apply binary_round_aux_sign, Hq.
Qed.

Lemma round2_nonneg x : nonneg x -> nonneg (F64.round2 x).
Proof.
  destruct x as [s|[]| |[] m e]; cbn [nonneg F64.round2]; try tauto.
  intros _. apply of_ratio_nonneg; [apply scaled_nonneg|]; lia.
Qed.

Lemma sum_extended_nonneg items : forall acc s,
  Forall (fun it => 0 <= quantity it /\ finite_nonneg (unit_price it)) items ->
  nonneg acc -> sum_extended items acc = Ok s -> nonneg s.
Proof.
  induction items as [|it items IH]; intros acc s Hall Hacc;
    cbn [sum_extended].
  - intros H; injection H as <-. exact Hacc.
  - inversion Hall as [|? ? [Hq Hp] Hrest]; subst.
    unfold int_mul_float.
    destruct (F64.of_int (quantity it)) as [fq|] eqn:Hfq; cbn [bind];
      [|discriminate].
    apply IH; [exact Hrest|].
    apply add_nonneg; [exact Hacc|].
    apply mul_finite_nonneg; [exact (of_int_nonneg _ _ Hq Hfq)|exact Hp].
Qed.

(** X14.  With quantities between 0 and 2^53 and unit prices that are
    finite and not negative, the invoice is generated and its grand
    total is zero, a positive number or plus infinity: it is never
    negative and never a NaN. *)
Theorem X14_total_is_not_negative {G} {R : Random G} k products inv po out
    items (w : world (G := G)) :
  valid_key k ->
  Forall (fun it => 0 <= quantity it < 2 ^ 53 /\ finite_nonneg (unit_price it))
    items ->
  exists fname total w',
    generate_invoice k products inv po out (Some items) w = Ok (fname, total, w')
    /\ nonneg total.
Proof.
  intros Hk Hall.
  pose proof (generate_invoice_explicit_run k products inv po out items w Hk)
    as Hrun.
  cbv zeta in Hrun.
  destruct (sum_extended_total items (S754_zero false)) as [s Hs].
  { eapply Forall_impl; [|exact Hall]. intros it [Hq _].
    destruct (of_int_small (quantity it)) as [x ->]; [lia|discriminate]. }
  rewrite Hs in Hrun. destruct Hrun as (page & amounts & Hgen & _).
  assert (Hns : nonneg s).
  { apply (sum_extended_nonneg items (S754_zero false)); [|exact I|exact Hs].
    eapply Forall_impl; [|exact Hall]. intros it [Hq Hp]. split; [lia|exact Hp]. }
  do 3 eexists. split; [exact Hgen|].
  assert (H25 : nonneg (dec 25 0)) by (vm_compute; exact I).
  assert (H8 : nonneg (dec 8 0)) by (vm_compute; exact I).
  assert (Hpos : forall x n d,
             nonneg x ->
             (exists m e, dec n d = S754_finite false m e) ->
             nonneg (F64.mul x (dec n d))).
  { intros x n d Hx (m & e & ->). apply mul_nonneg_positive, Hx. }
  assert (L2 : exists m e, dec 2 2 = S754_finite false m e)
    by (do 2 eexists; vm_compute; reflexivity).
  assert (L1 : exists m e, dec 1 2 = S754_finite false m e)
    by (do 2 eexists; vm_compute; reflexivity).
  assert (L5 : exists m e, dec 5 2 = S754_finite false m e)
    by (do 2 eexists; vm_compute; reflexivity).
  assert (L9 : exists m e, dec 9975 5 = S754_finite false m e)
    by (do 2 eexists; vm_compute; reflexivity).
  repeat first
    [ assumption
    | apply add_nonneg
    | apply round2_nonneg
    | apply Hpos; [|assumption] ].
Qed.

(** The theorem at the seafood invoice of [main]. *)
Lemma X14_witness :
  valid_key (py "norref")
  /\ Forall (fun it => 0 <= quantity it < 2 ^ 53
                      /\ finite_nonneg (unit_price it)) seafood_items
  /\ exists fname total w',
       generate_invoice (G := tape) (py "norref") SEAFOOD_PRODUCTS
         (py "NRF-78234") (py "PO-2025-1247") output_dir (Some seafood_items)
         world0
       = Ok (fname, total, w')
       /\ nonneg total.
Proof.
  assert (H : Forall (fun it => 0 <= quantity it < 2 ^ 53
                               /\ finite_nonneg (unit_price it)) seafood_items).
  { repeat constructor; vm_compute; try reflexivity; discriminate. }
  split; [exact valid_norref|]. split; [exact H|].
  exact (X14_total_is_not_negative (py "norref") SEAFOOD_PRODUCTS
           (py "NRF-78234") (py "PO-2025-1247") output_dir seafood_items world0
           valid_norref H).
Defined.

(** X15.  An invoice generated without explicit items always fits on its
    page: it has at most 15 rows, so the block of payment terms has its
    lower edge at 131 or higher, above the bar at the bottom of the page
    (heights 25 to 50). *)
Theorem X15_random_invoice_fits {G} {R : Random G} (L : RandomLaws G) k products
    inv po out (w : world (G := G)) :
  valid_key k ->
  exists fname total w' page edge,
    generate_invoice k products inv po out None w = Ok (fname, total, w')
    /\ saved_page w' = Some (fname, page)
    /\ filled_rects_at 30 55 page = [edge]
    /\ filled_rects_at 0 25 page = [25]
    /\ 131 <= edge.
Proof.
  intros Hk.
  destruct (select_items_spec products (rng w))
    as (n & items & g' & Hsel & Hn & Hlen & _ & Hq).
  rewrite (generate_invoice_random k products inv po out w items g' Hsel).
  destruct (valid_key_get k Hk) as (s & cs & Hs & Hcs).
  destruct (generate_invoice_page k products inv po out items
              (World g' (now w) (files w)) s cs Hs Hcs)
    as (fname & total & page & Hgen & _ & _ & _ & H4 & H5).
  { eapply Forall_impl; [|exact Hq]. intros it Hit. cbv beta in Hit.
    destruct (of_int_small (quantity it)) as [x ->]; [|discriminate].
    apply Z.lt_le_trans with 6; [lia|]. now vm_compute. }
  exists fname, total. do 3 eexists.
  split; [exact Hgen|]. split; [reflexivity|].
  split; [exact H4|]. split; [exact H5|]. lia.
Qed.

(** The theorem at the tape generator and the seafood catalog. *)
Lemma X15_witness :
  RandomLaws tape /\ valid_key (py "norref")
  /\ exists fname total w' page edge,
       generate_invoice (py "norref") SEAFOOD_PRODUCTS (py "NRF-1") (py "PO-1")
         output_dir None world0
       = Ok (fname, total, w')
       /\ saved_page w' = Some (fname, page)
       /\ filled_rects_at 30 55 page = [edge]
       /\ filled_rects_at 0 25 page = [25]
       /\ 131 <= edge.
Proof.
  split; [exact tape_laws|]. split; [exact valid_norref|].
  exact (X15_random_invoice_fits tape_laws (py "norref") SEAFOOD_PRODUCTS
           (py "NRF-1") (py "PO-1") output_dir world0 valid_norref).
Defined.

(** ** The tables *)

Ltac find_in_list := repeat first [ left; reflexivity | right ].

(** X16.  Every line item of the seafood, meat and produce invoices of
    [main] is an entry of the catalog of its supplier, with the same
    code, description, pack and unit price.  In the packaging invoice
    this holds of every item but one: USTENSILES COMBO HVY is invoiced
    under the code CE-90714, which the catalog does not have; the
    catalog lists the product under CE-90712. *)
Theorem X16_items_and_catalogs :
  Forall (fun it => In (product_of it) SEAFOOD_PRODUCTS) seafood_items
  /\ Forall (fun it => In (product_of it) MEAT_PRODUCTS) meat_items
  /\ Forall (fun it => In (product_of it) PRODUCE_PRODUCTS) produce_items
  /\ Forall (fun it => In (product_of it) PACKAGING_PRODUCTS
                       \/ item_code it = py "CE-90714") packaging_items
  /\ In (py "CE-90714", py "USTENSILES COMBO HVY", py "1/500", 1, dec 7250 2)
       packaging_items
  /\ ~ In (py "CE-90714")
         (map (fun p : product => fst (fst (fst p))) PACKAGING_PRODUCTS)
  /\ In (py "CE-90712", py "USTENSILES COMBO HVY", py "1/500", dec 7250 2)
       PACKAGING_PRODUCTS.
Proof.
  split; [|split; [|split; [|split; [|split; [|split]]]]].
  - vm_compute. repeat (apply Forall_cons; [solve [find_in_list]|]).
    apply Forall_nil.
  - vm_compute. repeat (apply Forall_cons; [solve [find_in_list]|]).
    apply Forall_nil.
  - vm_compute. repeat (apply Forall_cons; [solve [find_in_list]|]).
    apply Forall_nil.
  - vm_compute.
    repeat (apply Forall_cons;
            [first [ solve [left; find_in_list] | right; reflexivity ]|]).
    apply Forall_nil.
  - vm_compute. find_in_list.
  - vm_compute. intuition discriminate.
  - vm_compute. find_in_list.
Qed.
